(** * mnis: interval arithmetic of [mnislib.py] over [housedata.py]

    A shallow embedding of the date logic of the mnis package: the test for a
    date falling inside a membership, the resolution of a member's
    constituency and party on a date, and the count of days served net of the
    dissolution periods recorded in [housedata.dates].

    A [datetime.date] is represented by its proleptic Gregorian ordinal
    ([date.toordinal()]): comparison of dates is comparison of ordinals and
    [(a - b).days] is their difference.  [datetime.date.today()] is an
    explicit argument [today].  Membership dictionaries decoded from JSON are
    records whose [StartDate] and [EndDate] hold the dates that
    [convertMnisDatetime] yields for the strings of the record; an [EndDate]
    that is not a string (the nil object of an open membership) is [None]. *)

From Stdlib Require Import ZArith Lia DecimalString Ascii.
From stdpp Require Import gmap strings list sorting.

Local Open Scope Z_scope.
Local Open Scope string_scope.

(** ** Calendar dates *)

Module Calendar.

Definition date := Z.

Definition is_leap (year : Z) : bool :=
  bool_decide (year mod 4 = 0) &&
  (negb (bool_decide (year mod 100 = 0)) || bool_decide (year mod 400 = 0)).

Definition days_before_year (year : Z) : Z :=
  let y := year - 1 in y * 365 + y / 4 - y / 100 + y / 400.

Definition DAYS_IN_MONTH : list Z :=
  [-1; 31; 28; 31; 30; 31; 30; 31; 31; 30; 31; 30; 31].

Definition DAYS_BEFORE_MONTH : list Z :=
  [-1; 0; 31; 59; 90; 120; 151; 181; 212; 243; 273; 304; 334].

Definition days_before_month (year month : Z) : Z :=
  nth (Z.to_nat month) DAYS_BEFORE_MONTH 0 +
  (if bool_decide (month > 2) && is_leap year then 1 else 0).

Definition ymd2ord (year month day : Z) : Z :=
  days_before_year year + days_before_month year month + day.

(** [datetime.date(year, month, day)] *)
Definition mkdate (year month day : Z) : date := ymd2ord year month day.

Definition DI400Y : Z := 146097.
Definition DI100Y : Z := 36524.
Definition DI4Y : Z := 1461.

Definition ord2ymd (ordinal : Z) : Z * Z * Z :=
  let n := ordinal - 1 in
  let n400 := n / DI400Y in
  let n := n mod DI400Y in
  let year := n400 * 400 + 1 in
  let n100 := n / DI100Y in
  let n := n mod DI100Y in
  let n4 := n / DI4Y in
  let n := n mod DI4Y in
  let n1 := n / 365 in
  let n := n mod 365 in
  let year := year + n100 * 100 + n4 * 4 + n1 in
  if bool_decide (n1 = 4) || bool_decide (n100 = 4) then (year - 1, 12, 31)
  else
    let leapyear :=
      bool_decide (n1 = 3) &&
      (negb (bool_decide (n4 = 24)) || bool_decide (n100 = 3)) in
    let month := Z.shiftr (n + 50) 5 in
    let preceding :=
      nth (Z.to_nat month) DAYS_BEFORE_MONTH 0 +
      (if bool_decide (month > 2) && leapyear then 1 else 0) in
    if bool_decide (preceding > n) then
      let month := month - 1 in
      let preceding :=
        preceding - (nth (Z.to_nat month) DAYS_IN_MONTH 0 +
                     (if bool_decide (month = 2) && leapyear then 1 else 0)) in
      (year, month, n - preceding + 1)
    else (year, month, n - preceding + 1).

Definition digit (n : Z) : string :=
  String (Ascii.ascii_of_nat (48 + Z.to_nat (n mod 10))) "".

(** [width] decimal digits of a non-negative number, zero padded. *)
Fixpoint zfill (width : nat) (n : Z) : string :=
  match width with
  | O => ""
  | S w => zfill w (n / 10) +:+ digit n
  end.

(** [str(d)] for a date, that is [d.isoformat()]. *)
Definition isoformat (d : date) : string :=
  let '(y, m, dd) := ord2ymd d in
  zfill 4 y +:+ "-" +:+ zfill 2 m +:+ "-" +:+ zfill 2 dd.

End Calendar.

Import Calendar.

(** ** Exceptions and results *)

(** The exceptions the modelled functions can raise: the package's
    [MembershipError] with its message, and Python's own [IndexError] and
    [KeyError].  The specification names them by role: the error of a start
    date after the end date is its [DateRangeError], the one of the last
    branch of the dissolution loop its [ConfigurationError], and the failure
    of [startDates[0]] on an empty list its [EmptyResultError]. *)
Inductive exn : Type :=
  | MembershipError (msg : string)
  | IndexError (msg : string)
  | KeyError (key : string).

Inductive result (A : Type) : Type :=
  | Ok (a : A)
  | Err (e : exn).
Arguments Ok {A} a.
Arguments Err {A} e.

#[global] Instance result_ret : MRet result := fun _ a => Ok a.
#[global] Instance result_bind : MBind result := fun _ _ f r =>
  match r with
  | Ok a => f a
  | Err e => Err e
  end.

Definition DateRangeError : exn :=
  MembershipError "startDate after endDate in getMembershipDays".
Definition ConfigurationError : exn :=
  MembershipError "Shouldn't happen in getMembershipDays".
Definition EmptyResultError : exn :=
  IndexError "list index out of range".
Definition RangeCheckError : exn :=
  MembershipError "startDate later than endDate in isDateInRange".

(** ** Records decoded from MNIS *)

(** One entry of [Constituencies], [Parties] or [HouseMemberships], with its
    dates as [convertMnisDatetime] reads them.  The records with the texts
    of the dates, and the reading of them where the source does it, are in
    the module [Json] below. *)
Record membership : Type := Membership {
  Name : string;
  House : string;
  StartDate : date;
  EndDate : option date
}.

(** The API gives a list when a member has several entries and the bare
    object when there is one. *)
Inductive entries (A : Type) : Type :=
  | Single (a : A)
  | Listed (l : list A).
Arguments Single {A} a.
Arguments Listed {A} l.

Definition items {A : Type} (e : entries A) : list A :=
  match e with
  | Single a => [a]
  | Listed l => l
  end.

Record member : Type := Member {
  Constituencies : entries membership;
  Parties : entries membership;
  HouseMemberships : entries membership
}.

(** ** housedata.py *)

Record houseDate : Type := HouseDate {
  dissolution : date;
  election : date
}.

(** [dates[key] = value] *)
Definition setitem (d : gmap string houseDate) (kv : string * houseDate)
  : gmap string houseDate := <[kv.1 := kv.2]> d.

Definition dates : gmap string houseDate :=
  foldl setitem ∅ [
    ("1929", HouseDate (mkdate 1929 5 10) (mkdate 1929 5 30));
    ("1931", HouseDate (mkdate 1931 10 8) (mkdate 1931 10 27));
    ("1935", HouseDate (mkdate 1935 10 25) (mkdate 1935 11 14));
    ("1945", HouseDate (mkdate 1945 6 15) (mkdate 1945 7 5));
    ("1950", HouseDate (mkdate 1950 2 3) (mkdate 1950 2 23));
    ("1951", HouseDate (mkdate 1951 10 5) (mkdate 1951 10 25));
    ("1955", HouseDate (mkdate 1955 5 6) (mkdate 1955 5 26));
    ("1959", HouseDate (mkdate 1959 9 18) (mkdate 1959 10 8));
    ("1964", HouseDate (mkdate 1964 9 25) (mkdate 1964 10 15));
    ("1966", HouseDate (mkdate 1966 3 10) (mkdate 1966 3 31));
    ("1970", HouseDate (mkdate 1970 5 29) (mkdate 1970 6 18));
    ("1974 (Feb)", HouseDate (mkdate 1974 2 8) (mkdate 1974 2 28));
    ("1974 (Oct)", HouseDate (mkdate 1974 9 20) (mkdate 1974 10 10));
    ("1979", HouseDate (mkdate 1979 4 7) (mkdate 1979 5 3));
    ("1983", HouseDate (mkdate 1983 5 13) (mkdate 1983 6 9));
    ("1987", HouseDate (mkdate 1987 5 18) (mkdate 1987 6 11));
    ("1992", HouseDate (mkdate 1992 3 16) (mkdate 1992 4 9));
    ("1997", HouseDate (mkdate 1997 4 8) (mkdate 1997 5 1));
    ("2001", HouseDate (mkdate 2001 5 14) (mkdate 2001 6 7));
    ("2005", HouseDate (mkdate 2005 4 11) (mkdate 2005 5 5));
    ("2010", HouseDate (mkdate 2010 4 12) (mkdate 2010 5 6));
    ("2015", HouseDate (mkdate 2015 3 30) (mkdate 2015 5 7))
  ].

(** ** mnislib.py *)

Definition isDateInRange (onDate startDate endDate : date) : result bool :=
  if decide (startDate > endDate) then Err RangeCheckError
  else if bool_decide (onDate >= startDate) && bool_decide (onDate <= endDate)
       then Ok true
       else Ok false.

Definition isDateInMembership (today : date) (membership : membership)
    (onDate : date) : result bool :=
  let startDate := StartDate membership in
  let endDate := today in
  let endDate :=
    match EndDate membership with
    | Some e => e
    | None => endDate
    end in
  isDateInRange onDate startDate endDate.

(** The text returned for a date on which no membership applies. *)
Definition notServing (onDate : date) : string :=
  "Not serving on " +:+ isoformat onDate.

(** The [for ... break] scan shared by [getConstituencyForMember] and
    [getPartyForMember]: [name] is the value held so far. *)
Fixpoint scanMemberships (today : date) (memberships : list membership)
    (onDate : date) (name : string) : result string :=
  match memberships with
  | [] => Ok name
  | membership :: rest =>
      inside ← isDateInMembership today membership onDate;
      if inside : bool then Ok (Name membership)
      else scanMemberships today rest onDate name
  end.

Definition resolveMembership (today : date)
    (memberships : entries membership) (onDate : date) : result string :=
  let name := notServing onDate in
  match memberships with
  | Listed l => scanMemberships today l onDate name
  | Single membership =>
      inside ← isDateInMembership today membership onDate;
      if inside : bool then Ok (Name membership) else Ok name
  end.

Definition getConstituencyForMember (today : date) (member : member)
    (onDate : date) : result string :=
  resolveMembership today (Constituencies member) onDate.

Definition getPartyForMember (today : date) (member : member)
    (onDate : date) : result string :=
  resolveMembership today (Parties member) onDate.

(** [sorted(houseDates.keys())] *)
Definition sortedKeys (houseDates : gmap string houseDate) : list string :=
  merge_sort String.le (map_to_list houseDates).*1.

(** One pass of the body of the loop over [elections]: the value of
    [serviceDays] after it. *)
Definition removeDissolution (h : houseDate) (startDate endDate : date)
    (serviceDays : Z) : result Z :=
  let election := election h in
  let dissolution := dissolution h in
  if decide (dissolution >= startDate) then
    if decide (dissolution < endDate) then
      if decide (election <= endDate) then
        Ok (serviceDays - (election - dissolution))
      else
        Ok (serviceDays - (endDate - dissolution))
    else Ok serviceDays
  else if decide (dissolution < startDate) then
    if decide (election > startDate) then
      if decide (election <= endDate) then
        Ok (serviceDays - (election - startDate))
      else
        Ok (serviceDays - (endDate - startDate))
    else Ok serviceDays
  else Err ConfigurationError.

Fixpoint removeDissolutions (houseDates : gmap string houseDate)
    (elections : list string) (startDate endDate : date) (serviceDays : Z)
    : result Z :=
  match elections with
  | [] => Ok serviceDays
  | e :: rest =>
      match houseDates !! e with
      | None => Err (KeyError e)
      | Some h =>
          serviceDays ← removeDissolution h startDate endDate serviceDays;
          removeDissolutions houseDates rest startDate endDate serviceDays
      end
  end.

Definition getMembershipDays (membership : membership) (onDate : date)
    (houseDates : gmap string houseDate) : result Z :=
  let startDate := StartDate membership in
  let endDate := onDate in
  let endDate :=
    match EndDate membership with
    | Some e => e
    | None => endDate
    end in
  if decide (startDate >= onDate) then Ok 0
  else
    let endDate := if decide (endDate > onDate) then onDate else endDate in
    if decide (startDate > endDate) then Err DateRangeError
    else
      let serviceDays := endDate - startDate in
      let elections := sortedKeys houseDates in
      removeDissolutions houseDates elections startDate endDate serviceDays.

(** The loop of [getServiceDataForMember] over the house memberships, on
    the pair of [serviceDays] and [startDates]. *)
Fixpoint commonsService (memberships : list membership) (onDate : date)
    (acc : Z * list date) : result (Z * list date) :=
  match memberships with
  | [] => Ok acc
  | membership :: rest =>
      if decide (House membership = "Commons") then
        daysService ← getMembershipDays membership onDate dates;
        commonsService rest onDate
          (acc.1 + daysService, (acc.2 ++ [StartDate membership])%list)
      else commonsService rest onDate acc
  end.

Definition getServiceDataForMember (member : member) (onDate : date)
    : result (date * Z) :=
  let houseMembership := HouseMemberships member in
  acc ←
    match houseMembership with
    | Listed l => commonsService l onDate (0, [])
    | Single membership =>
        if decide (House membership = "Commons") then
          daysService ← getMembershipDays membership onDate dates;
          Ok (0 + daysService, [StartDate membership])
        else Ok (0, [])
    end;
  let startDates := merge_sort Z.le acc.2 in
  match startDates with
  | [] => Err EmptyResultError
  | startDate :: _ => Ok (startDate, acc.1)
  end.

(** ** mnislib.py: date conversion *)

(** [convertMnisDatetime] hands the first ten characters of its argument to
    [datetime.datetime.strptime] with the format ['%Y-%m-%d'].  The model
    follows CPython's [_strptime] on strings of ASCII characters: the three
    directives are the regular expressions [\d\d\d\d],
    [1[0-2]|0[1-9]|[1-9]] and [3[01]|[12]\d|0[1-9]|[1-9]| [1-9]], tried in
    that order; text left over after the day and a day, month or year that
    [datetime.date] refuses raise [ValueError], which is [None] here.
    (Python also takes decimal digits outside ASCII; those are not
    modelled.) *)

(** [s[:n]] *)
Fixpoint firstChars (n : nat) (s : string) : string :=
  match n, s with
  | S n', String c rest => String c (firstChars n' rest)
  | _, _ => ""
  end.

Definition digitValue (c : Ascii.ascii) : option Z :=
  let n := Z.of_nat (Ascii.nat_of_ascii c) in
  if decide (48 <= n <= 57) then Some (n - 48) else None.

(** A digit within [low, high]. *)
Definition digitBetween (low high : Z) (c : Ascii.ascii) : option Z :=
  match digitValue c with
  | Some v => if decide (low <= v <= high) then Some v else None
  | None => None
  end.

(** [%Y] *)
Definition directive_Y (s : string) : option (Z * string) :=
  match s with
  | String a (String b (String c (String d rest))) =>
      match digitValue a, digitValue b, digitValue c, digitValue d with
      | Some va, Some vb, Some vc, Some vd =>
          Some (1000 * va + 100 * vb + 10 * vc + vd, rest)
      | _, _, _, _ => None
      end
  | _ => None
  end.

(** One alternative of two characters: [first] and a digit within
    [low, high]. *)
Definition twoChars (first : Ascii.ascii -> option Z) (low high : Z)
    (s : string) : option (Z * string) :=
  match s with
  | String a (String b rest) =>
      match first a, digitBetween low high b with
      | Some va, Some vb => Some (10 * va + vb, rest)
      | _, _ => None
      end
  | _ => None
  end.

(** One alternative of a single digit within [low, high]. *)
Definition oneChar (low high : Z) (s : string) : option (Z * string) :=
  match s with
  | String a rest =>
      match digitBetween low high a with
      | Some va => Some (va, rest)
      | None => None
      end
  | _ => None
  end.

Definition blank (c : Ascii.ascii) : option Z :=
  if decide (c = " "%char) then Some 0 else None.

(** The first alternative that matches. *)
Fixpoint firstMatch (alternatives : list (string -> option (Z * string)))
    (s : string) : option (Z * string) :=
  match alternatives with
  | [] => None
  | alternative :: others =>
      match alternative s with
      | Some r => Some r
      | None => firstMatch others s
      end
  end.

(** [%m] *)
Definition directive_m : string -> option (Z * string) :=
  firstMatch [twoChars (digitBetween 1 1) 0 2;
              twoChars (digitBetween 0 0) 1 9;
              oneChar 1 9].

(** [%d] *)
Definition directive_d : string -> option (Z * string) :=
  firstMatch [twoChars (digitBetween 3 3) 0 1;
              twoChars (digitBetween 1 2) 0 9;
              twoChars (digitBetween 0 0) 1 9;
              oneChar 1 9;
              twoChars blank 1 9].

Definition hyphen (s : string) : option string :=
  match s with
  | String c rest => if decide (c = "-"%char) then Some rest else None
  | _ => None
  end.

(** The year, month and day that ['%Y-%m-%d'] reads from the whole of a
    string. *)
Definition strptime_Ymd (s : string) : option (Z * Z * Z) :=
  match directive_Y s with
  | Some (year, s) =>
      match hyphen s with
      | Some s =>
          match directive_m s with
          | Some (month, s) =>
              match hyphen s with
              | Some s =>
                  match directive_d s with
                  | Some (day, "") => Some (year, month, day)
                  | _ => None
                  end
              | None => None
              end
          | None => None
          end
      | None => None
      end
  | None => None
  end.

Definition days_in_month (year month : Z) : Z :=
  if bool_decide (month = 2) && is_leap year then 29
  else nth (Z.to_nat month) DAYS_IN_MONTH 0.

(** [datetime.date(year, month, day)], which refuses what is not a date. *)
Definition checkedDate (year month day : Z) : option date :=
  if decide (1 <= year <= 9999) then
    if decide (1 <= month <= 12) then
      if decide (1 <= day <= days_in_month year month)
      then Some (mkdate year month day)
      else None
    else None
  else None.

Definition convertMnisDatetime (mnisDatetime : string) : option date :=
  let mnisDate := firstChars 10 mnisDatetime in
  match strptime_Ymd mnisDate with
  | Some (year, month, day) => checkedDate year month day
  | None => None
  end.

(** The strings on which the characters of a Python [str] and the bytes of a
    string here are the same thing, and [\d] means an ASCII digit. *)
Fixpoint isAscii (s : string) : bool :=
  match s with
  | String c rest => bool_decide (Ascii.nat_of_ascii c < 128)%nat && isAscii rest
  | EmptyString => true
  end.

(** The month and the day of the month of the day numbered [n] from 0
    within its year, as [_ord2ymd] finds them from its estimate
    [(n + 50) >> 5]. *)
Definition monthDay (leapyear : bool) (n : Z) : Z * Z :=
  let month := Z.shiftr (n + 50) 5 in
  let preceding :=
    nth (Z.to_nat month) DAYS_BEFORE_MONTH 0 +
    (if bool_decide (month > 2) && leapyear then 1 else 0) in
  if bool_decide (preceding > n) then
    let month := month - 1 in
    let preceding :=
      preceding - (nth (Z.to_nat month) DAYS_IN_MONTH 0 +
                   (if bool_decide (month = 2) && leapyear then 1 else 0)) in
    (month, n - preceding + 1)
  else (month, n - preceding + 1).

(** What is asked of [monthDay]: a month, a day of that month, and the
    right day of the year. *)
Definition monthDay_ok (leapyear : bool) (n : Z) : bool :=
  let '(m, d) := monthDay leapyear n in
  bool_decide (1 <= m <= 12) &&
  bool_decide (1 <= d <= (if bool_decide (m = 2) && leapyear then 29
                          else nth (Z.to_nat m) DAYS_IN_MONTH 0)) &&
  bool_decide (nth (Z.to_nat m) DAYS_BEFORE_MONTH 0 +
               (if bool_decide (m > 2) && leapyear then 1 else 0) + d
               = n + 1).

(** ** mnislib.py: retrieval *)

(** What the functions that fetch members can raise: the package's
    [ParameterError] and its subclass [ElectionIdError], and whatever the
    request to the service or the decoding of its answer raises. *)
Inductive retrievalExn : Type :=
  | ParameterError (msg : string)
  | ElectionIdError (msg : string)
  | ServiceError (detail : string).

Definition TooManyOutputParameters : retrievalExn :=
  ParameterError "More than three output parameters in buildMnisUrl".
Definition InvalidElectionId : retrievalExn :=
  ElectionIdError "Invalid id in getCommonsMembersAtElection".

(** [str(n)] for an integer. *)
Definition decimal (n : Z) : string := NilZero.string_of_int (Z.to_int n).

(** ['{0}-{1}-{2}'.format(d.year, d.month, d.day)] *)
Definition urlDate (d : date) : string :=
  let '(y, m, dd) := ord2ymd d in
  decimal y +:+ "-" +:+ decimal m +:+ "-" +:+ decimal dd.

Definition buildMnisUrl (urlParameters : string)
    (outputParameters : list string) : retrievalExn + string :=
  if decide (3 < length outputParameters)%nat then inl TooManyOutputParameters
  else
    inr ("http://data.parliament.uk/membersdataplatform/services/"
         +:+ "mnis/members/query/House=Commons|Membership=all|"
         +:+ urlParameters +:+ "/" +:+ String.concat "|" outputParameters).

Definition validElectionIds : list string :=
  ["1983"; "1987"; "1992"; "1997"; "2001"; "2005"; "2010"; "2015"].

Section Retrieval.

(** The members as decoded from the answer of the service. *)
Context {Members : Type}.

(** The request for a URL and the decoding of the answer
    ([requests.get], [json.loads], [['Members']['Member']]): the members, or
    the detail of what was raised. *)
Variable service : string -> string + Members.

Definition getCommonsMembers (urlParameters : string)
    (outputParameters : list string) : retrievalExn + Members :=
  match buildMnisUrl urlParameters outputParameters with
  | inl e => inl e
  | inr url =>
      match service url with
      | inl detail => inl (ServiceError detail)
      | inr members => inr members
      end
  end.

Definition getCommonsMembersBetween (startDate endDate : date)
    (outputParameters : list string) : retrievalExn + Members :=
  let s := urlDate startDate in
  let e := urlDate endDate in
  let urlParameters := "commonsmemberbetween=" +:+ s +:+ "and" +:+ e in
  getCommonsMembers urlParameters outputParameters.

Definition getCommonsMembersOn (date : date)
    (outputParameters : list string) : retrievalExn + Members :=
  getCommonsMembersBetween date date outputParameters.

Definition getCurrentCommonsMembers (today : date)
    (outputParameters : list string) : retrievalExn + Members :=
  getCommonsMembersOn today outputParameters.

Definition getCommonsMembersAtElection (generalElectionId : string)
    (outputParameters : list string) : retrievalExn + Members :=
  if decide (generalElectionId ∉ validElectionIds) then inl InvalidElectionId
  else
    let urlParameters :=
      "returnedatelection=" +:+ generalElectionId
      +:+ "%20General%20Election" in
    getCommonsMembers urlParameters outputParameters.

End Retrieval.

(** ** mnislib.py: summaries *)

(** A member as decoded from the answer of the service: the identifying
    fields beside the three attributes.  As for the memberships, a
    [DateOfBirth] that is a string is held as the date
    [convertMnisDatetime] yields for it, and one that is not as [None]. *)
Record memberRecord : Type := MemberRecord {
  Member_Id : string;
  ListAs : string;
  Gender : string;
  DateOfBirth : option date;
  attributes : member
}.

Definition getIdForMember (m : memberRecord) : string := Member_Id m.

Definition getListNameForMember (m : memberRecord) : string := ListAs m.

Definition getGenderForMember (m : memberRecord) : string := Gender m.

(** A date, or the empty string when the date of birth is not known. *)
Definition getDateOfBirthForMember (m : memberRecord) : date + string :=
  match DateOfBirth m with
  | Some d => inl d
  | None => inr ""
  end.

(** One dictionary of the summary. *)
Record summaryRow : Type := SummaryRow {
  member_id : string;
  list_name : string;
  constituency : string;
  party : string;
  date_of_birth : date + string;
  gender : string;
  first_start_date : date;
  days_service : Z
}.

(** The body of the loop of [getSummaryDataForMembers]: the dictionary built
    for one member. *)
Definition summariseMember (today : date) (m : memberRecord) (onDate : date)
    : result summaryRow :=
  let id := getIdForMember m in
  let listName := getListNameForMember m in
  constituencyName ← getConstituencyForMember today (attributes m) onDate;
  partyName ← getPartyForMember today (attributes m) onDate;
  let dateOfBirth := getDateOfBirthForMember m in
  let genderCode := getGenderForMember m in
  service ← getServiceDataForMember (attributes m) onDate;
  Ok (SummaryRow id listName constituencyName partyName dateOfBirth
        genderCode service.1 service.2).

Fixpoint summariseMembers (today : date) (members : list memberRecord)
    (onDate : date) (summary : list summaryRow) : result (list summaryRow) :=
  match members with
  | [] => Ok summary
  | m :: rest =>
      memberData ← summariseMember today m onDate;
      summariseMembers today rest onDate (summary ++ [memberData])%list
  end.

Definition getSummaryDataForMembers (today : date)
    (members : list memberRecord) (onDate : date)
    : result (list summaryRow) :=
  summariseMembers today members onDate [].

(** ** mnislib.py on the records as MNIS sends them *)

(** The functions above take memberships whose dates have been read.  The
    source reads a date where it uses it: [isDateInMembership],
    [getMembershipDays], [getServiceDataForMember] and
    [getDateOfBirthForMember] call [convertMnisDatetime] on the text held in
    the record, and [convertMnisDatetime] raises [ValueError] on a text that
    [strptime] cannot read.  What follows embeds the same functions on
    records that hold the texts, with [ValueError] beside the exceptions
    above.  A record holds every key the functions read, with a text for
    every start date: a member that lacks a key makes the source raise
    [KeyError] at the first use of it, and one whose start date is no text
    [TypeError]; neither is among the records here. *)
Inductive raised : Type :=
  | Exn (e : exn)
  | ValueError.

Inductive outcome (A : Type) : Type :=
  | Returns (a : A)
  | Raises (e : raised).
Arguments Returns {A} a.
Arguments Raises {A} e.

#[global] Instance outcome_ret : MRet outcome := fun _ a => Returns a.
#[global] Instance outcome_bind : MBind outcome := fun _ _ f r =>
  match r with
  | Returns a => f a
  | Raises e => Raises e
  end.

(** A call of a function that works on dates. *)
Definition lift {A : Type} (r : result A) : outcome A :=
  match r with
  | Ok a => Returns a
  | Err e => Raises (Exn e)
  end.

Module Json.

(** One entry of [Constituencies], [Parties] or [HouseMemberships]:
    [StartDate] is a text, [EndDate] a text when the membership is closed
    and otherwise an object that is no [str], here [None]. *)
Record membership : Type := Membership {
  Name : string;
  House : string;
  StartDate : string;
  EndDate : option string
}.

(** A member; [DateOfBirth] is a text or, when it is not known, an object
    that is no [str]. *)
Record member : Type := Member {
  Member_Id : string;
  ListAs : string;
  Gender : string;
  DateOfBirth : option string;
  Constituencies : entries membership;
  Parties : entries membership;
  HouseMemberships : entries membership
}.

Section Conversion.

(** The date [convertMnisDatetime] returns for a text, [None] where it
    raises.  Nothing is assumed of it: what is proved below holds for the
    function defined above and for any other reading of the texts, that of
    CPython included. *)
Variable convert : string -> option date.

Definition convertMnisDatetime (mnisDatetime : string) : outcome date :=
  match convert mnisDatetime with
  | Some convertedDate => Returns convertedDate
  | None => Raises ValueError
  end.

Definition getIdForMember (member : member) : string := Member_Id member.

Definition getListNameForMember (member : member) : string := ListAs member.

Definition getGenderForMember (member : member) : string := Gender member.

Definition getDateOfBirthForMember (member : member)
    : outcome (date + string) :=
  match DateOfBirth member with
  | Some text => d ← convertMnisDatetime text; Returns (inl d)
  | None => Returns (inr "")
  end.

Definition isDateInMembership (today : date) (membership : membership)
    (onDate : date) : outcome bool :=
  startDate ← convertMnisDatetime (StartDate membership);
  let endDate := today in
  endDate ←
    match EndDate membership with
    | Some text => convertMnisDatetime text
    | None => Returns endDate
    end;
  lift (isDateInRange onDate startDate endDate).

Fixpoint scanMemberships (today : date) (memberships : list membership)
    (onDate : date) (name : string) : outcome string :=
  match memberships with
  | [] => Returns name
  | membership :: rest =>
      inside ← isDateInMembership today membership onDate;
      if inside : bool then Returns (Name membership)
      else scanMemberships today rest onDate name
  end.

Definition resolveMembership (today : date)
    (memberships : entries membership) (onDate : date) : outcome string :=
  let name := notServing onDate in
  match memberships with
  | Listed l => scanMemberships today l onDate name
  | Single membership =>
      inside ← isDateInMembership today membership onDate;
      if inside : bool then Returns (Name membership) else Returns name
  end.

Definition getConstituencyForMember (today : date) (member : member)
    (onDate : date) : outcome string :=
  resolveMembership today (Constituencies member) onDate.

Definition getPartyForMember (today : date) (member : member)
    (onDate : date) : outcome string :=
  resolveMembership today (Parties member) onDate.

Definition getMembershipDays (membership : membership) (onDate : date)
    (houseDates : gmap string houseDate) : outcome Z :=
  startDate ← convertMnisDatetime (StartDate membership);
  let endDate := onDate in
  endDate ←
    match EndDate membership with
    | Some text => convertMnisDatetime text
    | None => Returns endDate
    end;
  if decide (startDate >= onDate) then Returns 0
  else
    let endDate := if decide (endDate > onDate) then onDate else endDate in
    if decide (startDate > endDate) then Raises (Exn DateRangeError)
    else
      let serviceDays := endDate - startDate in
      let elections := sortedKeys houseDates in
      lift (removeDissolutions houseDates elections startDate endDate
              serviceDays).

Fixpoint commonsService (memberships : list membership) (onDate : date)
    (acc : Z * list date) : outcome (Z * list date) :=
  match memberships with
  | [] => Returns acc
  | membership :: rest =>
      if decide (House membership = "Commons") then
        daysService ← getMembershipDays membership onDate dates;
        startDate ← convertMnisDatetime (StartDate membership);
        commonsService rest onDate
          (acc.1 + daysService, (acc.2 ++ [startDate])%list)
      else commonsService rest onDate acc
  end.

Definition getServiceDataForMember (member : member) (onDate : date)
    : outcome (date * Z) :=
  let houseMembership := HouseMemberships member in
  acc ←
    match houseMembership with
    | Listed l => commonsService l onDate (0, [])
    | Single membership =>
        if decide (House membership = "Commons") then
          daysService ← getMembershipDays membership onDate dates;
          startDate ← convertMnisDatetime (StartDate membership);
          Returns (0 + daysService, [startDate])
        else Returns (0, [])
    end;
  let startDates := merge_sort Z.le acc.2 in
  match startDates with
  | [] => Raises (Exn EmptyResultError)
  | startDate :: _ => Returns (startDate, acc.1)
  end.

(** The body of the loop of [getSummaryDataForMembers] for one member. *)
Definition summariseMember (today : date) (member : member) (onDate : date)
    : outcome summaryRow :=
  let id := getIdForMember member in
  let listName := getListNameForMember member in
  constituencyName ← getConstituencyForMember today member onDate;
  partyName ← getPartyForMember today member onDate;
  dateOfBirth ← getDateOfBirthForMember member;
  let genderCode := getGenderForMember member in
  service ← getServiceDataForMember member onDate;
  Returns (SummaryRow id listName constituencyName partyName dateOfBirth
             genderCode service.1 service.2).

Fixpoint summariseMembers (today : date) (members : list member)
    (onDate : date) (summary : list summaryRow) : outcome (list summaryRow) :=
  match members with
  | [] => Returns summary
  | member :: rest =>
      memberData ← summariseMember today member onDate;
      summariseMembers today rest onDate (summary ++ [memberData])%list
  end.

Definition getSummaryDataForMembers (today : date) (members : list member)
    (onDate : date) : outcome (list summaryRow) :=
  summariseMembers today members onDate [].

End Conversion.

End Json.

(** ** Vocabulary of the specification *)

(** The end of a membership as the attribute resolver sees it: the recorded
    end, or today's date when the membership is open. *)
Definition resolverEnd (today : date) (m : membership) : date :=
  default today (EndDate m).

(** [start <= onDate <= effectiveEnd], both ends included. *)
Definition covers (today : date) (m : membership) (onDate : date) : Prop :=
  StartDate m <= onDate /\ onDate <= resolverEnd today m.

(** An interval whose start exceeds its effective end. *)
Definition malformed (today : date) (m : membership) : Prop :=
  StartDate m > resolverEnd today m.

#[global] Instance covers_dec today m onDate : Decision (covers today m onDate).
Proof. unfold covers. apply _. Defined.

#[global] Instance malformed_dec today m : Decision (malformed today m).
Proof. unfold malformed. apply _. Defined.


(** The end of a membership as the day count sees it: the recorded end, or
    [onDate] when the membership is open, brought down to [onDate]. *)
Definition effectiveEnd (m : membership) (onDate : date) : date :=
  Z.min (default onDate (EndDate m)) onDate.

(** The single formula of the specification for the days one blackout takes
    from the range [start, end]. *)
Definition overlap (h : houseDate) (startDate endDate : date) : Z :=
  Z.max 0 (Z.min (election h) endDate - Z.max (dissolution h) startDate).

Definition totalOverlap (ps : list houseDate) (startDate endDate : date) : Z :=
  foldr (fun h acc => overlap h startDate endDate + acc) 0 ps.

(** The day count as the specification words it: steps 1 to 7 with the
    formula for every blackout of the list. *)
Definition daysByFormula (m : membership) (onDate : date)
    (ps : list houseDate) : result Z :=
  let endDate := default onDate (EndDate m) in
  if decide (StartDate m >= onDate) then Ok 0
  else
    let endDate := Z.min endDate onDate in
    if decide (StartDate m > endDate) then Err DateRangeError
    else Ok (endDate - StartDate m - totalOverlap ps (StartDate m) endDate).

(** The blackout periods of a table in the order [getMembershipDays] visits
    them: by sorted key. *)
Definition periods (houseDates : gmap string houseDate) : list houseDate :=
  omap (fun e => houseDates !! e) (sortedKeys houseDates).

(** A period that does not end before it begins. *)
Definition wellFormed (h : houseDate) : Prop := dissolution h <= election h.

(** Each period is over when any later one of the list begins. *)
Definition nonOverlapping (ps : list houseDate) : Prop :=
  StronglySorted (fun a b => election a <= dissolution b) ps.

(** Ascending by dissolution date. *)
Definition ascending (ps : list houseDate) : Prop :=
  Sorted (fun a b => dissolution a <= dissolution b) ps.

Definition strictlyAscending (ps : list houseDate) : Prop :=
  Sorted (fun a b => dissolution a < dissolution b) ps.

(** The loop of [getMembershipDays] over the periods themselves. *)
Fixpoint removePeriods (ps : list houseDate) (startDate endDate : date)
    (serviceDays : Z) : result Z :=
  match ps with
  | [] => Ok serviceDays
  | h :: rest =>
      serviceDays ← removeDissolution h startDate endDate serviceDays;
      removePeriods rest startDate endDate serviceDays
  end.

(** A house membership that counts towards service in the Commons. *)
Definition isCommons (m : membership) : Prop := House m = "Commons".

#[global] Instance isCommons_dec m : Decision (isCommons m).
Proof. unfold isCommons. apply _. Defined.

(** A membership for which the day count on [onDate] is a number: it starts
    on or after [onDate], or not after its effective end. *)
Definition countable (onDate : date) (m : membership) : Prop :=
  StartDate m >= onDate \/ StartDate m <= effectiveEnd m onDate.

#[global] Instance countable_dec onDate m : Decision (countable onDate m).
Proof. unfold countable. apply _. Defined.

(** The days [getMembershipDays] gives a membership against the table of
    [housedata.dates], 0 standing for a failure. *)
Definition daysOf (onDate : date) (m : membership) : Z :=
  match getMembershipDays m onDate dates with
  | Ok d => d
  | Err _ => 0
  end.

Definition sumDays (onDate : date) (l : list membership) : Z :=
  foldr (fun m acc => daysOf onDate m + acc) 0 l.

(** The row that [getSummaryDataForMembers] builds for a member: each field
    is what the getter of that field returns. *)
Definition summarises (today onDate : date) (m : memberRecord)
    (row : summaryRow) : Prop :=
  member_id row = getIdForMember m /\
  list_name row = getListNameForMember m /\
  getConstituencyForMember today (attributes m) onDate
  = Ok (constituency row) /\
  getPartyForMember today (attributes m) onDate = Ok (party row) /\
  date_of_birth row = getDateOfBirthForMember m /\
  gender row = getGenderForMember m /\
  getServiceDataForMember (attributes m) onDate
  = Ok (first_start_date row, days_service row).

(** A membership with its dates read, when [convert] reads them. *)
Definition decode (convert : string -> option date) (m : Json.membership)
    : option membership :=
  startDate ← convert (Json.StartDate m);
  endDate ←
    match Json.EndDate m with
    | Some text => Some <$> convert text
    | None => Some None
    end;
  Some (Membership (Json.Name m) (Json.House m) startDate endDate).

Definition decodeEntries (convert : string -> option date)
    (e : entries Json.membership) : option (entries membership) :=
  match e with
  | Single m => Single <$> decode convert m
  | Listed l => Listed <$> mapM (decode convert) l
  end.

(** A member with all its dates read, when [convert] reads them all. *)
Definition decodeMember (convert : string -> option date) (m : Json.member)
    : option memberRecord :=
  dateOfBirth ←
    match Json.DateOfBirth m with
    | Some text => Some <$> convert text
    | None => Some None
    end;
  constituencies ← decodeEntries convert (Json.Constituencies m);
  parties ← decodeEntries convert (Json.Parties m);
  houseMemberships ← decodeEntries convert (Json.HouseMemberships m);
  Some (MemberRecord (Json.Member_Id m) (Json.ListAs m) (Json.Gender m)
          dateOfBirth (Member constituencies parties houseMemberships)).

(** The first of the constituency, the party, the date of birth and the
    service data of a member to raise, raises [e]. *)
Definition failsWith (convert : string -> option date) (today onDate : date)
    (m : Json.member) (e : raised) : Prop :=
  Json.getConstituencyForMember convert today m onDate = Raises e \/
  ((exists c, Json.getConstituencyForMember convert today m onDate
              = Returns c) /\
   Json.getPartyForMember convert today m onDate = Raises e) \/
  ((exists c, Json.getConstituencyForMember convert today m onDate
              = Returns c) /\
   (exists p, Json.getPartyForMember convert today m onDate = Returns p) /\
   Json.getDateOfBirthForMember convert m = Raises e) \/
  ((exists c, Json.getConstituencyForMember convert today m onDate
              = Returns c) /\
   (exists p, Json.getPartyForMember convert today m onDate = Returns p) /\
   (exists b, Json.getDateOfBirthForMember convert m = Returns b) /\
   Json.getServiceDataForMember convert m onDate = Raises e).

(** An interval whose dates [convert] reads, with the start not after the
    effective end. *)
Definition readableInterval (convert : string -> option date) (today : date)
    (x : Json.membership) : Prop :=
  exists x', decode convert x = Some x' /\ ~ malformed today x'.

(** A member that [getSummaryDataForMembers] can always summarise: the date
    of birth, if it is a text, can be read; the dates of every constituency
    and party interval can be read and none of these intervals has its start
    after its effective end; there is a Commons membership; and the dates of
    every Commons membership can be read and give a day count. *)
Definition wellRecorded (convert : string -> option date)
    (today onDate : date) (m : Json.member) : Prop :=
  (forall text, Json.DateOfBirth m = Some text -> is_Some (convert text)) /\
  Forall (readableInterval convert today) (items (Json.Constituencies m)) /\
  Forall (readableInterval convert today) (items (Json.Parties m)) /\
  Exists (fun x => Json.House x = "Commons")
    (items (Json.HouseMemberships m)) /\
  Forall (fun x => Json.House x = "Commons" ->
                   exists x', decode convert x = Some x' /\
                              countable onDate x')
    (items (Json.HouseMemberships m)).

(** ** Sample records *)

Definition abbott : membership :=
  Membership "" "Commons" (mkdate 1987 6 11) None.

Definition spanning : membership :=
  Membership "" "Commons" (mkdate 1987 6 11) (Some (mkdate 2015 3 30)).

Definition invalid : membership :=
  Membership "" "Commons" (mkdate 2015 5 7) (Some (mkdate 2015 3 30)).

Definition onDissolution : membership :=
  Membership "" "Commons" (mkdate 1987 5 18) None.

Definition closedParty : membership :=
  Membership "Labour" "" (mkdate 2010 5 6) (Some (mkdate 2015 3 30)).

Definition openParty : membership :=
  Membership "Conservative" "" (mkdate 2015 5 7) None.


Definition lordsOnly : membership :=
  Membership "" "Lords" (mkdate 2010 5 6) None.


Definition abbottRecord : memberRecord :=
  MemberRecord "172" "Abbott, Ms Diane" "F" (Some (mkdate 1953 9 27))
    (Member (Single (Membership "Hackney North and Stoke Newington" ""
                       (mkdate 1987 6 11) None))
            (Single (Membership "Labour" "" (mkdate 1987 6 11) None))
            (Single abbott)).

Definition peerRecord : memberRecord :=
  MemberRecord "1" "Peer, Lord" "M" None
    (Member (Single openParty) (Single openParty) (Listed [lordsOnly])).

(** The record of the same member as MNIS sends it. *)
Definition abbottJson : Json.member :=
  Json.Member "172" "Abbott, Ms Diane" "F" (Some "1953-09-27T00:00:00")
    (Single (Json.Membership "Hackney North and Stoke Newington" ""
               "1987-06-11T00:00:00" None))
    (Single (Json.Membership "Labour" "" "1987-06-11T00:00:00" None))
    (Single (Json.Membership "" "Commons" "1987-06-11T00:00:00" None)).

(** A peer whose date of birth is no date, with a membership of the Lords
    only. *)
Definition peerJson : Json.member :=
  Json.Member "1" "Peer, Lord" "M" (Some "1953-02-30T00:00:00")
    (Single (Json.Membership "Conservative" "" "2015-05-07T00:00:00" None))
    (Single (Json.Membership "Conservative" "" "2015-05-07T00:00:00" None))
    (Listed [Json.Membership "" "Lords" "2010-05-06T00:00:00" None]).

(** A member without date of birth, with a membership of the Lords whose
    start date cannot be read before a membership of the Commons. *)
Definition formerPeerJson : Json.member :=
  Json.Member "2" "Member, Mr" "M" None
    (Single (Json.Membership "Bristol West" "" "2010-05-06T00:00:00"
               (Some "2015-03-30T00:00:00")))
    (Single (Json.Membership "Labour" "" "2010-05-06T00:00:00" None))
    (Listed [Json.Membership "" "Lords" "not a date" None;
             Json.Membership "" "Commons" "2010-05-06T00:00:00"
               (Some "2015-03-30T00:00:00")]).

Definition firstPart : membership :=
  Membership "" "Commons" (mkdate 1987 6 11) (Some (mkdate 1997 5 1)).

Definition secondPart : membership :=
  Membership "" "Commons" (mkdate 1997 5 1) None.

(** Two tables with the periods of 1992 and 1997 under different keys. *)
Definition tableByYear : gmap string houseDate :=
  foldl setitem ∅ [
    ("1992", HouseDate (mkdate 1992 3 16) (mkdate 1992 4 9));
    ("1997", HouseDate (mkdate 1997 4 8) (mkdate 1997 5 1))
  ].

Definition tableByName : gmap string houseDate :=
  foldl setitem ∅ [
    ("Blair", HouseDate (mkdate 1997 4 8) (mkdate 1997 5 1));
    ("Major", HouseDate (mkdate 1992 3 16) (mkdate 1992 4 9))
  ].

(** A table whose one period has the election before the dissolution. *)
Definition invertedTable : gmap string houseDate :=
  setitem ∅ ("2015", HouseDate (mkdate 2015 5 7) (mkdate 2015 3 30)).

Example mkdate_2015_05_07 : mkdate 2015 5 7 = 735725.
Proof. reflexivity. Qed.

Example isoformat_2015_05_07 : isoformat (mkdate 2015 5 7) = "2015-05-07".
Proof. vm_compute. reflexivity. Qed.

Example isoformat_leap_day : isoformat (mkdate 2016 2 29) = "2016-02-29".
Proof. vm_compute. reflexivity. Qed.

Example isoformat_year_end : isoformat (mkdate 1999 12 31) = "1999-12-31".
Proof. vm_compute. reflexivity. Qed.

Example scenario_C_check :
  getMembershipDays spanning (mkdate 1997 4 8) dates = Ok 3565.
Proof. vm_compute. reflexivity. Qed.

Example before_start_check :
  getMembershipDays spanning (mkdate 1987 6 10) dates = Ok 0.
Proof. vm_compute. reflexivity. Qed.

Example invalid_fails_check :
  getMembershipDays invalid (mkdate 2016 1 1) dates = Err DateRangeError.
Proof. vm_compute. reflexivity. Qed.

Example sortedKeys_dates_check :
  sortedKeys dates = ["1929"; "1931"; "1935"; "1945"; "1950"; "1951"; "1955";
    "1959"; "1964"; "1966"; "1970"; "1974 (Feb)"; "1974 (Oct)"; "1979";
    "1983"; "1987"; "1992"; "1997"; "2001"; "2005"; "2010"; "2015"].
Proof. vm_compute. reflexivity. Qed.

(** Closed comparisons of dates and closed calls are settled by evaluation. *)
Ltac by_evaluation :=
  vm_compute; first [reflexivity | discriminate | (intros ?; discriminate)].


(** ** The dissolution loop *)

Lemma bind_Ok {A B : Type} (a : A) (f : A -> result B) :
  (Ok a ≫= f) = f a.
Proof. reflexivity. Qed.

Lemma removeDissolution_returns h s n sd :
  exists r, removeDissolution h s n sd = Ok r.
Proof.
  unfold removeDissolution.
  repeat case_decide; eauto; lia.
Qed.

Lemma removeDissolution_formula h s n sd :
  s <= n -> wellFormed h ->
  removeDissolution h s n sd = Ok (sd - overlap h s n).
Proof.
  unfold removeDissolution, overlap, wellFormed. intros Hsn Hwf.
  repeat case_decide; try (f_equal; lia); lia.
Qed.

Lemma sortedKeys_lookup (houseDates : gmap string houseDate) e :
  e ∈ sortedKeys houseDates -> is_Some (houseDates !! e).
Proof.
  unfold sortedKeys. rewrite merge_sort_Permutation.
  intros [[k h] [-> Hin]]%list_elem_of_fmap.
  apply elem_of_map_to_list in Hin. simpl. eauto.
Qed.

Lemma removeDissolutions_periods (houseDates : gmap string houseDate) es s n sd :
  Forall (fun e => is_Some (houseDates !! e)) es ->
  removeDissolutions houseDates es s n sd
  = removePeriods (omap (fun e => houseDates !! e) es) s n sd.
Proof.
  intros Hes. revert sd. induction Hes as [|e es [h He] _ IH]; intros sd.
  - reflexivity.
  - simpl. rewrite He. simpl.
    destruct (removeDissolution_returns h s n sd) as [r ->].
    rewrite !bind_Ok. apply IH.
Qed.

Lemma removeDissolutions_sortedKeys (houseDates : gmap string houseDate) s n sd :
  removeDissolutions houseDates (sortedKeys houseDates) s n sd
  = removePeriods (periods houseDates) s n sd.
Proof.
  apply removeDissolutions_periods, Forall_forall.
  intros e He. apply sortedKeys_lookup, He.
Qed.

Lemma removePeriods_returns ps s n sd :
  exists r, removePeriods ps s n sd = Ok r.
Proof.
  revert sd. induction ps as [|h ps IH]; intros sd; simpl; eauto.
  destruct (removeDissolution_returns h s n sd) as [r ->].
  rewrite bind_Ok. apply IH.
Qed.

Lemma removePeriods_formula ps s n sd :
  s <= n -> Forall wellFormed ps ->
  removePeriods ps s n sd = Ok (sd - totalOverlap ps s n).
Proof.
  intros Hsn Hps. revert sd.
  induction Hps as [|h ps Hh _ IH]; intros sd; simpl.
  - f_equal. lia.
  - rewrite (removeDissolution_formula h s n sd Hsn Hh), bind_Ok, IH.
    f_equal. lia.
Qed.

Lemma overlap_nonneg h s n : 0 <= overlap h s n.
Proof. unfold overlap. lia. Qed.

Lemma totalOverlap_nonneg ps s n : 0 <= totalOverlap ps s n.
Proof.
  induction ps as [|h ps IH]; simpl; [lia|].
  pose proof (overlap_nonneg h s n). lia.
Qed.

Lemma totalOverlap_Permutation ps qs s n :
  ps ≡ₚ qs -> totalOverlap ps s n = totalOverlap qs s n.
Proof.
  induction 1; simpl; lia.
Qed.

(** Periods that follow one another from [low] on cannot take more than what
    is left of the range after [low]. *)
Lemma totalOverlap_chain ps s n low :
  Forall wellFormed ps -> nonOverlapping ps ->
  (forall h, head ps = Some h -> low <= dissolution h) ->
  totalOverlap ps s n <= Z.max 0 (n - Z.max s low).
Proof.
  intros Hwf. revert low.
  induction Hwf as [|h ps Hh _ IH]; intros low Hsorted Hlow; simpl; [lia|].
  apply StronglySorted_inv in Hsorted as [Hsorted Hlater].
  specialize (Hlow h eq_refl).
  assert (totalOverlap ps s n <= Z.max 0 (n - Z.max s (election h))) as Hrest.
  { apply IH; [exact Hsorted|].
    intros h' Hh'. destruct ps as [|h'' ps]; [discriminate|].
    injection Hh' as ->. apply Forall_cons in Hlater as [Hnext _].
    exact Hnext. }
  unfold overlap, wellFormed in *. lia.
Qed.

Lemma totalOverlap_bound ps s n :
  s <= n -> Forall wellFormed ps -> nonOverlapping ps ->
  totalOverlap ps s n <= n - s.
Proof.
  intros Hsn Hwf Hsorted.
  destruct ps as [|h ps]; [simpl; lia|].
  pose proof (totalOverlap_chain (h :: ps) s n (dissolution h) Hwf Hsorted) as H.
  assert (totalOverlap (h :: ps) s n <= Z.max 0 (n - Z.max s (dissolution h))).
  { apply H. intros h' [= ->]. lia. }
  lia.
Qed.

(** ** getMembershipDays, case by case *)

Lemma getMembershipDays_cases m onDate (houseDates : gmap string houseDate) :
  getMembershipDays m onDate houseDates =
  if decide (StartDate m >= onDate) then Ok 0
  else if decide (StartDate m > effectiveEnd m onDate) then Err DateRangeError
  else removePeriods (periods houseDates) (StartDate m) (effectiveEnd m onDate)
         (effectiveEnd m onDate - StartDate m).
Proof.
  unfold getMembershipDays, effectiveEnd.
  case_decide; [reflexivity|].
  replace (match EndDate m with Some e => e | None => onDate end)
    with (default onDate (EndDate m)) by (destruct (EndDate m); reflexivity).
  set (e := default onDate (EndDate m)).
  replace (if decide (e > onDate) then onDate else e) with (Z.min e onDate)
    by (case_decide; lia).
  case_decide; [reflexivity|].
  apply removeDissolutions_sortedKeys.
Qed.

Lemma getMembershipDays_only_error m onDate (houseDates : gmap string houseDate) e :
  getMembershipDays m onDate houseDates = Err e -> e = DateRangeError.
Proof.
  rewrite getMembershipDays_cases. repeat case_decide; try congruence.
  destruct (removePeriods_returns (periods houseDates) (StartDate m)
              (effectiveEnd m onDate) (effectiveEnd m onDate - StartDate m))
    as [r ->].
  discriminate.
Qed.

Lemma getMembershipDays_formula m onDate (houseDates : gmap string houseDate) :
  Forall wellFormed (periods houseDates) ->
  getMembershipDays m onDate houseDates
  = daysByFormula m onDate (periods houseDates).
Proof.
  intros Hwf. rewrite getMembershipDays_cases.
  unfold daysByFormula. fold (effectiveEnd m onDate).
  repeat case_decide; try reflexivity.
  apply removePeriods_formula; [lia | exact Hwf].
Qed.

(** ** Claims on the day count *)

(** C10. The last [else] of the dissolution loop, which raises
    [MembershipError("Shouldn't happen in getMembershipDays")], cannot be
    reached: a dissolution date is on or after the start date or before it,
    so neither one pass of the loop body nor [getMembershipDays] as a whole
    ever ends in that error, whatever the membership, the query date and the
    table. *)
Theorem shouldnt_happen_unreachable :
  (forall h startDate endDate serviceDays,
     removeDissolution h startDate endDate serviceDays
     <> Err ConfigurationError) /\
  (forall m onDate (houseDates : gmap string houseDate),
     getMembershipDays m onDate houseDates <> Err ConfigurationError).
Proof.
  split.
  - intros h s n sd.
    destruct (removeDissolution_returns h s n sd) as [r ->]. discriminate.
  - intros m onDate houseDates H.
    apply getMembershipDays_only_error in H. discriminate H.
Qed.

(** C6. [getMembershipDays] fails with the start-after-end
    [MembershipError] (the specification's DateRangeError) exactly when the
    start date is before [onDate] and, the open end resolved to [onDate] and
    a later end brought down to [onDate], the start date is strictly after
    the resulting end date; and it fails in no other way. *)
Theorem date_range_error_iff :
  forall m onDate (houseDates : gmap string houseDate),
    (getMembershipDays m onDate houseDates = Err DateRangeError <->
     StartDate m < onDate /\ StartDate m > effectiveEnd m onDate) /\
    (forall e, getMembershipDays m onDate houseDates = Err e ->
               e = DateRangeError).
Proof.
  intros m onDate houseDates. split.
  - rewrite getMembershipDays_cases. split.
    + repeat case_decide; try discriminate; [lia|].
      destruct (removePeriods_returns (periods houseDates) (StartDate m)
                  (effectiveEnd m onDate) (effectiveEnd m onDate - StartDate m))
        as [r ->].
      discriminate.
    + intros [Hlt Hgt]. repeat case_decide; try lia. reflexivity.
  - apply getMembershipDays_only_error.
Qed.

(** C8. Scenario A: for the membership that starts on 1987-06-11 and is still
    open, queried on 2015-05-07 against the table of [housedata.dates],
    [getMembershipDays] returns 10035. *)
Theorem scenario_A :
  getMembershipDays (Membership "" "Commons" (mkdate 1987 6 11) None)
    (mkdate 2015 5 7) dates = Ok 10035.
Proof. vm_compute. reflexivity. Qed.

Lemma dates_periods_strict :
  Forall (fun h => dissolution h < election h) (periods dates).
Proof.
  let ps := eval vm_compute in (periods dates) in
  replace (periods dates) with ps by (vm_compute; reflexivity).
  repeat (constructor; [simpl; lia|]). constructor.
Qed.

Lemma dates_periods_wellFormed : Forall wellFormed (periods dates).
Proof.
  eapply Forall_impl; [apply dates_periods_strict|].
  unfold wellFormed. intros h Hh. simpl in Hh. lia.
Qed.

Lemma dates_periods_nonOverlapping : nonOverlapping (periods dates).
Proof.
  unfold nonOverlapping.
  let ps := eval vm_compute in (periods dates) in
  replace (periods dates) with ps by (vm_compute; reflexivity).
  repeat (apply SSorted_cons;
          [|repeat (apply Forall_cons; split; [simpl; lia|]);
            apply Forall_nil; exact I]).
  apply SSorted_nil.
Qed.

Lemma dates_periods_strictlyAscending : strictlyAscending (periods dates).
Proof.
  unfold strictlyAscending.
  let ps := eval vm_compute in (periods dates) in
  replace (periods dates) with ps by (vm_compute; reflexivity).
  repeat (constructor; [|constructor; simpl; lia]).
  constructor; constructor.
Qed.

Lemma Sorted_weaken {A : Type} (R S : relation A) (l : list A) :
  (forall a b, R a b -> S a b) -> Sorted R l -> Sorted S l.
Proof.
  intros HRS. induction 1 as [|a l Hl IH Hhd]; constructor; [exact IH|].
  destruct Hhd; constructor; auto.
Qed.

Lemma dates_periods_ascending : ascending (periods dates).
Proof.
  unfold ascending.
  eapply Sorted_weaken; [|apply dates_periods_strictlyAscending].
  intros a b Hab. simpl in Hab. lia.
Qed.

(** C9. Read in the sorted-key order that [getMembershipDays] uses, the table
    of [housedata.dates] has every dissolution strictly before its election,
    each period over when the next begins, and dissolution dates in strictly
    ascending order; the keys "1974 (Feb)" and "1974 (Oct)" fall in that
    order between "1970" and "1979". *)
Theorem dates_calendar_invariant :
  Forall (fun h => dissolution h < election h) (periods dates) /\
  nonOverlapping (periods dates) /\
  strictlyAscending (periods dates) /\
  sortedKeys dates = ["1929"; "1931"; "1935"; "1945"; "1950"; "1951"; "1955";
    "1959"; "1964"; "1966"; "1970"; "1974 (Feb)"; "1974 (Oct)"; "1979";
    "1983"; "1987"; "1992"; "1997"; "2001"; "2005"; "2010"; "2015"].
Proof.
  split; [|split; [|split]].
  - apply dates_periods_strict.
  - apply dates_periods_nonOverlapping.
  - apply dates_periods_strictlyAscending.
  - vm_compute. reflexivity.
Qed.

(** C4. For every blackout period (an interval from a dissolution to the
    election that follows it, so with the dissolution not after the election)
    and every range [start, end] with start before end and the dissolution
    not on the start date, one pass of the branching loop body takes from
    [serviceDays] exactly
    [max(0, min(election, end) - max(dissolution, start))]. *)
Theorem removed_days_formula :
  forall h startDate endDate serviceDays,
    startDate < endDate ->
    dissolution h <> startDate ->
    dissolution h <= election h ->
    removeDissolution h startDate endDate serviceDays
    = Ok (serviceDays - overlap h startDate endDate).
Proof.
  intros h s n sd Hsn _ Hwf.
  apply removeDissolution_formula; [lia | exact Hwf].
Qed.

Lemma removed_days_formula_witness :
  mkdate 1987 6 11 < mkdate 2015 5 7 /\
  dissolution (HouseDate (mkdate 1992 3 16) (mkdate 1992 4 9))
    <> mkdate 1987 6 11 /\
  removeDissolution (HouseDate (mkdate 1992 3 16) (mkdate 1992 4 9))
    (mkdate 1987 6 11) (mkdate 2015 5 7) 10192
  = Ok (10192 - overlap (HouseDate (mkdate 1992 3 16) (mkdate 1992 4 9))
                  (mkdate 1987 6 11) (mkdate 2015 5 7)).
Proof.
  split; [by_evaluation|].
  split; [by_evaluation|].
  apply removed_days_formula; by_evaluation.
Defined.

(** The totals agree as well: on a table of well-formed periods the branching
    implementation and the day count by the single formula are the same
    function. *)
Lemma getMembershipDays_refines_formula :
  forall m onDate (houseDates : gmap string houseDate),
    Forall wellFormed (periods houseDates) ->
    getMembershipDays m onDate houseDates
    = daysByFormula m onDate (periods houseDates).
Proof. exact getMembershipDays_formula. Qed.

(** C5, as amended. For every membership, every query date and every table
    whose periods, put in ascending order of dissolution, each end no earlier
    than they begin and are over when the next one begins: whenever
    [getMembershipDays] returns a number [d], [0 <= d]; [d] is at most
    [effectiveEnd - start] when the start date is not after the effective
    end; and [d] is 0 when the start date is after it. *)
Theorem getMembershipDays_bounds :
  forall m onDate (houseDates : gmap string houseDate) d,
    (exists ps, ps ≡ₚ periods houseDates /\
                Forall wellFormed ps /\ nonOverlapping ps /\ ascending ps) ->
    getMembershipDays m onDate houseDates = Ok d ->
    0 <= d /\
    (StartDate m <= effectiveEnd m onDate ->
     d <= effectiveEnd m onDate - StartDate m) /\
    (effectiveEnd m onDate < StartDate m -> d = 0).
Proof.
  intros m onDate houseDates d (ps & Hperm & Hwf & Hno & _).
  rewrite getMembershipDays_cases.
  case_decide as Hstart; [intros [= <-]; lia|].
  case_decide as Hend; [discriminate|].
  rewrite removePeriods_formula; [|lia|rewrite <- Hperm; exact Hwf].
  intros [= <-].
  rewrite <- (totalOverlap_Permutation ps (periods houseDates)) by exact Hperm.
  pose proof (totalOverlap_nonneg ps (StartDate m) (effectiveEnd m onDate)).
  pose proof (totalOverlap_bound ps (StartDate m) (effectiveEnd m onDate)
                ltac:(lia) Hwf Hno).
  lia.
Qed.

Lemma getMembershipDays_bounds_witness :
  (exists ps, ps ≡ₚ periods dates /\
              Forall wellFormed ps /\ nonOverlapping ps /\ ascending ps) /\
  getMembershipDays abbott (mkdate 2015 5 7) dates = Ok 10035 /\
  0 <= 10035 /\
  (StartDate abbott <= effectiveEnd abbott (mkdate 2015 5 7) ->
   10035 <= effectiveEnd abbott (mkdate 2015 5 7) - StartDate abbott) /\
  (effectiveEnd abbott (mkdate 2015 5 7) < StartDate abbott -> 10035 = 0).
Proof.
  assert (exists ps, ps ≡ₚ periods dates /\
            Forall wellFormed ps /\ nonOverlapping ps /\ ascending ps) as Hcal.
  { exists (periods dates). split; [reflexivity|].
    split; [apply dates_periods_wellFormed|].
    split; [apply dates_periods_nonOverlapping|apply dates_periods_ascending]. }
  split; [exact Hcal|].
  split; [vm_compute; reflexivity|].
  apply (getMembershipDays_bounds abbott (mkdate 2015 5 7) dates 10035 Hcal).
  vm_compute. reflexivity.
Defined.

(** C5 as stated fails when the membership starts after the query date (the
    specification's scenario D): the function returns 0 before looking at the
    end date, while [effectiveEnd - start] is negative.  It also fails on a
    table whose one period has its election recorded before its dissolution:
    the 38 days between them are added to the count, which then exceeds
    [effectiveEnd - start]. *)
Lemma getMembershipDays_bound_fails :
  (Forall wellFormed (periods dates) /\
   nonOverlapping (periods dates) /\
   ascending (periods dates) /\
   getMembershipDays
     (Membership "" "Commons" (mkdate 2015 5 7) (Some (mkdate 2015 5 7)))
     (mkdate 2015 5 6) dates = Ok 0 /\
   effectiveEnd
     (Membership "" "Commons" (mkdate 2015 5 7) (Some (mkdate 2015 5 7)))
     (mkdate 2015 5 6)
   - StartDate
       (Membership "" "Commons" (mkdate 2015 5 7) (Some (mkdate 2015 5 7)))
   = -1) /\
  (nonOverlapping (periods invertedTable) /\
   ascending (periods invertedTable) /\
   getMembershipDays (Membership "" "Commons" (mkdate 2010 5 6) None)
     (mkdate 2016 1 1) invertedTable = Ok 2104 /\
   effectiveEnd (Membership "" "Commons" (mkdate 2010 5 6) None)
     (mkdate 2016 1 1)
   - StartDate (Membership "" "Commons" (mkdate 2010 5 6) None) = 2066).
Proof.
  split.
  - split; [apply dates_periods_wellFormed|].
    split; [apply dates_periods_nonOverlapping|].
    split; [apply dates_periods_ascending|].
    split; by_evaluation.
  - assert (periods invertedTable
            = [HouseDate (mkdate 2015 5 7) (mkdate 2015 3 30)]) as ->
      by by_evaluation.
    split; [repeat constructor|].
    split; [repeat constructor|].
    split; by_evaluation.
Qed.

(** C1, as amended. For every membership whose start date is the dissolution
    date of a period of the table, and every query date after that start
    date, [getMembershipDays] does not fail with the error of the loop's last
    branch: the period is handled by the [dissolution >= startDate] branch,
    which takes [min(election, end) - start] days when the start date is
    before the end date and nothing otherwise; the call returns a number
    whenever the start date is not after the effective end, and fails with
    the start-after-end error otherwise. *)
Theorem start_on_dissolution :
  forall m onDate (houseDates : gmap string houseDate) key h,
    houseDates !! key = Some h ->
    StartDate m = dissolution h ->
    StartDate m < onDate ->
    getMembershipDays m onDate houseDates <> Err ConfigurationError /\
    (forall serviceDays,
       removeDissolution h (StartDate m) (effectiveEnd m onDate) serviceDays
       = Ok (serviceDays -
             (if decide (StartDate m < effectiveEnd m onDate)
              then Z.min (election h) (effectiveEnd m onDate) - StartDate m
              else 0))) /\
    (StartDate m <= effectiveEnd m onDate ->
     exists d, getMembershipDays m onDate houseDates = Ok d) /\
    (effectiveEnd m onDate < StartDate m ->
     getMembershipDays m onDate houseDates = Err DateRangeError).
Proof.
  intros m onDate houseDates key h _ Hstart Hlt.
  split; [|split; [|split]].
  - intros H. apply getMembershipDays_only_error in H. discriminate H.
  - intros sd. unfold removeDissolution. rewrite <- Hstart.
    repeat case_decide; try lia; f_equal; lia.
  - intros Hle. rewrite getMembershipDays_cases.
    repeat case_decide; try lia. apply removePeriods_returns.
  - intros Hgt. rewrite getMembershipDays_cases.
    repeat case_decide; try lia. reflexivity.
Qed.

Lemma start_on_dissolution_witness :
  dates !! "1987" = Some (HouseDate (mkdate 1987 5 18) (mkdate 1987 6 11)) /\
  StartDate onDissolution
  = dissolution (HouseDate (mkdate 1987 5 18) (mkdate 1987 6 11)) /\
  StartDate onDissolution < mkdate 1987 6 20 /\
  getMembershipDays onDissolution (mkdate 1987 6 20) dates
  <> Err ConfigurationError /\
  (forall serviceDays,
     removeDissolution (HouseDate (mkdate 1987 5 18) (mkdate 1987 6 11))
       (StartDate onDissolution)
       (effectiveEnd onDissolution (mkdate 1987 6 20)) serviceDays
     = Ok (serviceDays -
           (if decide (StartDate onDissolution
                       < effectiveEnd onDissolution (mkdate 1987 6 20))
            then Z.min (election (HouseDate (mkdate 1987 5 18)
                                   (mkdate 1987 6 11)))
                   (effectiveEnd onDissolution (mkdate 1987 6 20))
                 - StartDate onDissolution
            else 0))) /\
  (StartDate onDissolution <= effectiveEnd onDissolution (mkdate 1987 6 20) ->
   exists d, getMembershipDays onDissolution (mkdate 1987 6 20) dates = Ok d) /\
  (effectiveEnd onDissolution (mkdate 1987 6 20) < StartDate onDissolution ->
   getMembershipDays onDissolution (mkdate 1987 6 20) dates
   = Err DateRangeError).
Proof.
  split; [by_evaluation|].
  split; [by_evaluation|].
  split; [by_evaluation|].
  apply (start_on_dissolution onDissolution (mkdate 1987 6 20) dates "1987"
           (HouseDate (mkdate 1987 5 18) (mkdate 1987 6 11)));
    by_evaluation.
Defined.

(** C1 as stated fails: a membership that starts on the dissolution date of
    1987, queried on 1987-06-20, gets a number of days (the 33 days from the
    start less the 24 of the dissolution) and no error. *)
Lemma start_on_dissolution_returns_days :
  dates !! "1987" = Some (HouseDate (mkdate 1987 5 18) (mkdate 1987 6 11)) /\
  StartDate onDissolution
  = dissolution (HouseDate (mkdate 1987 5 18) (mkdate 1987 6 11)) /\
  StartDate onDissolution < mkdate 1987 6 20 /\
  getMembershipDays onDissolution (mkdate 1987 6 20) dates = Ok 9 /\
  getMembershipDays onDissolution (mkdate 1987 6 20) dates
  <> Err ConfigurationError.
Proof.
  repeat (split; [by_evaluation|]). by_evaluation.
Qed.

(** ** Attribute resolution *)

Lemma isDateInMembership_cases today m onDate :
  isDateInMembership today m onDate =
  if decide (malformed today m) then Err RangeCheckError
  else Ok (bool_decide (covers today m onDate)).
Proof.
  destruct (decide (malformed today m)) as [Hbad|Hgood];
    destruct (bool_decide (covers today m onDate)) eqn:Hin;
    [apply bool_decide_eq_true_1 in Hin
    |apply bool_decide_eq_false_1 in Hin
    |apply bool_decide_eq_true_1 in Hin
    |apply bool_decide_eq_false_1 in Hin];
    unfold isDateInMembership, isDateInRange;
    unfold malformed, covers, resolverEnd in *;
    destruct (EndDate m) as [e|]; simpl in *;
    repeat case_decide; repeat case_bool_decide; simpl;
    try reflexivity; lia.
Qed.

Lemma resolveMembership_items today ms onDate :
  resolveMembership today ms onDate
  = scanMemberships today (items ms) onDate (notServing onDate).
Proof.
  destruct ms as [m|l]; [|reflexivity]. simpl.
  destruct (isDateInMembership today m onDate) as [[|]|e]; reflexivity.
Qed.










(** ** Service data *)

Lemma commonsService_none l onDate acc :
  Forall (fun m => House m <> "Commons") l ->
  commonsService l onDate acc = Ok acc.
Proof.
  induction 1 as [|m l Hm _ IH]; simpl; [reflexivity|].
  case_decide; [contradiction|exact IH].
Qed.

(** C3. When none of a member's house memberships is for the Commons,
    [getServiceDataForMember] fails: [startDates] is empty and
    [startDates[0]] raises [IndexError] (the specification's
    EmptyResultError); no first start date and no day count is returned. *)
Theorem no_commons_membership_fails :
  forall member onDate,
    Forall (fun m => House m <> "Commons") (items (HouseMemberships member)) ->
    getServiceDataForMember member onDate = Err EmptyResultError /\
    (forall startDate serviceDays,
       getServiceDataForMember member onDate <> Ok (startDate, serviceDays)).
Proof.
  intros member onDate Hnone.
  assert (getServiceDataForMember member onDate = Err EmptyResultError) as H.
  { unfold getServiceDataForMember.
    destruct (HouseMemberships member) as [m|l]; simpl in Hnone.
    - apply Forall_cons in Hnone as [Hm _].
      case_decide; [contradiction|reflexivity].
    - rewrite (commonsService_none l onDate _ Hnone). reflexivity. }
  split; [exact H|]. intros startDate serviceDays. rewrite H. discriminate.
Qed.

Lemma no_commons_membership_fails_witness :
  Forall (fun m => House m <> "Commons")
    (items (HouseMemberships
              (Member (Single openParty) (Single openParty)
                      (Listed [lordsOnly])))) /\
  getServiceDataForMember
    (Member (Single openParty) (Single openParty) (Listed [lordsOnly]))
    (mkdate 2015 5 7) = Err EmptyResultError.
Proof.
  assert (Forall (fun m => House m <> "Commons")
            (items (HouseMemberships
                      (Member (Single openParty) (Single openParty)
                              (Listed [lordsOnly]))))) as Hnone
    by (repeat constructor; by_evaluation).
  split; [exact Hnone|].
  apply (no_commons_membership_fails _ (mkdate 2015 5 7) Hnone).
Defined.

Example service_data_abbott :
  getServiceDataForMember
    (Member (Single openParty) (Single openParty) (Single abbott))
    (mkdate 2015 5 7) = Ok (mkdate 1987 6 11, 10035).
Proof. by_evaluation. Qed.

(** ** Further properties of the day count *)

(** What one pass of the loop body takes does not depend on the count it is
    taken from. *)
Lemma removeDissolution_amount h s n :
  exists k, forall sd, removeDissolution h s n sd = Ok (sd - k).
Proof.
  unfold removeDissolution.
  repeat case_decide; try lia;
    first [ eexists; intros sd; reflexivity
          | exists 0; intros sd; f_equal; lia ].
Qed.

Lemma removePeriods_Permutation ps qs s n sd :
  ps ≡ₚ qs -> removePeriods ps s n sd = removePeriods qs s n sd.
Proof.
  intros Hperm. revert sd.
  induction Hperm as [|x ps qs _ IH|x y ps|ps qs rs _ IH1 _ IH2]; intros sd.
  - reflexivity.
  - simpl. destruct (removeDissolution_amount x s n) as [k Hk].
    rewrite Hk, !bind_Ok. apply IH.
  - simpl.
    destruct (removeDissolution_amount x s n) as [kx Hx].
    destruct (removeDissolution_amount y s n) as [ky Hy].
    rewrite (Hy sd), (Hx sd), !bind_Ok, Hx, Hy, !bind_Ok.
    f_equal. lia.
  - rewrite IH1. apply IH2.
Qed.

Lemma overlap_split h s mid n :
  s <= mid -> mid <= n -> wellFormed h ->
  overlap h s mid + overlap h mid n = overlap h s n.
Proof. unfold overlap, wellFormed. lia. Qed.

Lemma totalOverlap_split ps s mid n :
  s <= mid -> mid <= n -> Forall wellFormed ps ->
  totalOverlap ps s mid + totalOverlap ps mid n = totalOverlap ps s n.
Proof.
  intros Hs Hn. induction 1 as [|h ps Hh _ IH]; simpl; [lia|].
  pose proof (overlap_split h s mid n Hs Hn Hh). lia.
Qed.

Lemma totalOverlap_none ps s n :
  s <= n ->
  Forall (fun h => election h <= s \/ n <= dissolution h) ps ->
  totalOverlap ps s n = 0.
Proof.
  intros Hsn. induction 1 as [|h ps Hh _ IH]; simpl; [reflexivity|].
  rewrite IH. unfold overlap. lia.
Qed.

(** The table counts only through its periods: two tables whose periods are
    the same up to order, whatever their keys, give every membership the same
    result on every date. *)
Theorem getMembershipDays_table_order :
  forall m onDate (houseDates houseDates' : gmap string houseDate),
    periods houseDates ≡ₚ periods houseDates' ->
    getMembershipDays m onDate houseDates
    = getMembershipDays m onDate houseDates'.
Proof.
  intros m onDate houseDates houseDates' Hperm.
  rewrite !getMembershipDays_cases.
  repeat case_decide; try reflexivity.
  apply removePeriods_Permutation, Hperm.
Qed.

(** The day count does not decrease as the query date moves on, on a table of
    well-formed periods that do not overlap. *)
Theorem getMembershipDays_monotone :
  forall m onDate onDate' (houseDates : gmap string houseDate) d d',
    (exists ps, ps ≡ₚ periods houseDates /\
                Forall wellFormed ps /\ nonOverlapping ps) ->
    onDate <= onDate' ->
    getMembershipDays m onDate houseDates = Ok d ->
    getMembershipDays m onDate' houseDates = Ok d' ->
    d <= d'.
Proof.
  intros m o o' houseDates d d' (ps & Hperm & Hwf & Hno) Hle.
  assert (Forall wellFormed (periods houseDates)) as Hwf'
    by (rewrite <- Hperm; exact Hwf).
  rewrite !getMembershipDays_cases.
  assert (effectiveEnd m o <= effectiveEnd m o') as Hend
    by (unfold effectiveEnd; destruct (EndDate m); simpl; lia).
  assert (effectiveEnd m o <= o) as Hclamp by (unfold effectiveEnd; lia).
  generalize dependent (effectiveEnd m o'). intros n'.
  generalize dependent (effectiveEnd m o). intros n.
  generalize dependent (StartDate m). intros s.
  intros Hend Hclamp.
  assert (s <= n' -> totalOverlap (periods houseDates) s n' <= n' - s) as Hwhole.
  { intros Hsn. rewrite <- (totalOverlap_Permutation ps) by exact Hperm.
    apply totalOverlap_bound; assumption. }
  assert (totalOverlap (periods houseDates) n n' <= n' - n) as Hlate.
  { rewrite <- (totalOverlap_Permutation ps) by exact Hperm.
    apply totalOverlap_bound; assumption. }
  assert (s <= n ->
          totalOverlap (periods houseDates) s n
          + totalOverlap (periods houseDates) n n'
          = totalOverlap (periods houseDates) s n') as Hsplit.
  { intros Hsn. apply totalOverlap_split; assumption. }
  repeat case_decide; try discriminate;
    try rewrite !removePeriods_formula by (first [lia | exact Hwf']);
    intros [= <-] [= <-]; lia.
Qed.

Lemma getMembershipDays_table_order_witness :
  periods tableByYear ≡ₚ periods tableByName /\
  getMembershipDays abbott (mkdate 2015 5 7) tableByYear
  = getMembershipDays abbott (mkdate 2015 5 7) tableByName.
Proof.
  assert (periods tableByYear ≡ₚ periods tableByName) as Hperm.
  { replace (periods tableByYear)
      with [HouseDate (mkdate 1992 3 16) (mkdate 1992 4 9);
            HouseDate (mkdate 1997 4 8) (mkdate 1997 5 1)] by by_evaluation.
    replace (periods tableByName)
      with [HouseDate (mkdate 1997 4 8) (mkdate 1997 5 1);
            HouseDate (mkdate 1992 3 16) (mkdate 1992 4 9)] by by_evaluation.
    apply perm_swap. }
  split; [exact Hperm|].
  apply getMembershipDays_table_order, Hperm.
Defined.

Lemma getMembershipDays_monotone_witness :
  (exists ps, ps ≡ₚ periods dates /\
              Forall wellFormed ps /\ nonOverlapping ps) /\
  mkdate 1997 4 8 <= mkdate 2015 5 7 /\
  getMembershipDays abbott (mkdate 1997 4 8) dates = Ok 3565 /\
  getMembershipDays abbott (mkdate 2015 5 7) dates = Ok 10035 /\
  3565 <= 10035.
Proof.
  assert (exists ps, ps ≡ₚ periods dates /\
            Forall wellFormed ps /\ nonOverlapping ps) as Hcal.
  { exists (periods dates). split; [reflexivity|].
    split; [apply dates_periods_wellFormed|apply dates_periods_nonOverlapping]. }
  split; [exact Hcal|].
  split; [by_evaluation|].
  split; [by_evaluation|].
  split; [by_evaluation|].
  apply (getMembershipDays_monotone abbott (mkdate 1997 4 8) (mkdate 2015 5 7)
           dates 3565 10035 Hcal); by_evaluation.
Defined.

Lemma removePeriods_none ps s n sd :
  s <= n ->
  Forall (fun h => (dissolution h <= election h /\ election h <= s)
                   \/ n <= dissolution h) ps ->
  removePeriods ps s n sd = Ok sd.
Proof.
  intros Hsn. induction 1 as [|h ps Hh _ IH]; simpl; [reflexivity|].
  assert (removeDissolution h s n sd = Ok sd) as ->.
  { unfold removeDissolution.
    repeat case_decide; try reflexivity; try (f_equal; lia); lia. }
  rewrite bind_Ok. exact IH.
Qed.

(** When every period of the table either runs from a dissolution to an
    election not before it and is over by the start date, or begins on or
    after the effective end, a membership that has started before the query
    date and is not malformed counts every day from its start to its
    effective end. *)
Theorem getMembershipDays_no_dissolution :
  forall m onDate (houseDates : gmap string houseDate),
    StartDate m < onDate ->
    StartDate m <= effectiveEnd m onDate ->
    Forall (fun h => (dissolution h <= election h /\
                      election h <= StartDate m)
                     \/ effectiveEnd m onDate <= dissolution h)
      (periods houseDates) ->
    getMembershipDays m onDate houseDates
    = Ok (effectiveEnd m onDate - StartDate m).
Proof.
  intros m onDate houseDates Hstart Hend Hfree.
  rewrite getMembershipDays_cases.
  repeat case_decide; try lia.
  apply removePeriods_none; assumption.
Qed.

Lemma getMembershipDays_no_dissolution_witness :
  StartDate closedParty < mkdate 2016 1 1 /\
  StartDate closedParty <= effectiveEnd closedParty (mkdate 2016 1 1) /\
  getMembershipDays closedParty (mkdate 2016 1 1) dates
  = Ok (effectiveEnd closedParty (mkdate 2016 1 1) - StartDate closedParty).
Proof.
  split; [by_evaluation|]. split; [by_evaluation|].
  apply getMembershipDays_no_dissolution; [by_evaluation|by_evaluation|].
  let ps := eval vm_compute in (periods dates) in
  replace (periods dates) with ps by (vm_compute; reflexivity).
  repeat (apply Forall_cons; split;
          [first [left; split; by_evaluation | right; by_evaluation]|]).
  apply Forall_nil; exact I.
Defined.

(** A membership cut in two at a date counts as the two parts together: on
    a table of well-formed periods, the days of [start, mid] and those of
    [mid, end] (the end open or not) add up to the days of [start, end], on
    every query date. *)
Theorem getMembershipDays_split :
  forall m1 m2 m onDate (houseDates : gmap string houseDate),
    Forall wellFormed (periods houseDates) ->
    StartDate m1 = StartDate m ->
    EndDate m1 = Some (StartDate m2) ->
    EndDate m2 = EndDate m ->
    StartDate m <= StartDate m2 ->
    (forall n, EndDate m = Some n -> StartDate m2 <= n) ->
    exists d1 d2,
      getMembershipDays m1 onDate houseDates = Ok d1 /\
      getMembershipDays m2 onDate houseDates = Ok d2 /\
      getMembershipDays m onDate houseDates = Ok (d1 + d2).
Proof.
  intros m1 m2 m o houseDates Hwf Hs1 He1 He2 Hmid Hlast.
  rewrite !getMembershipDays_cases. unfold effectiveEnd.
  rewrite Hs1, He1, He2. simpl.
  assert (StartDate m2 <= default o (EndDate m)
          \/ default o (EndDate m) = o) as Hn.
  { destruct (EndDate m) as [n|]; simpl; [left; apply Hlast; reflexivity|lia]. }
  generalize dependent (default o (EndDate m)). intros n Hn.
  generalize dependent (StartDate m2). intros mid _ Hmid _ Hn.
  generalize dependent (StartDate m). intros s _ Hmid.
  assert (mid <= Z.min n o ->
          totalOverlap (periods houseDates) s mid
          + totalOverlap (periods houseDates) mid (Z.min n o)
          = totalOverlap (periods houseDates) s (Z.min n o)) as Hsplit.
  { intros Hle. apply totalOverlap_split; assumption. }
  destruct (Z.min_spec mid o) as [[Hlt Hm]|[Hge Hm]]; rewrite Hm.
  - repeat case_decide; try lia;
      rewrite ?removePeriods_formula by (first [lia | exact Hwf]);
      eexists _, _; (split; [reflexivity|split; [reflexivity|]]);
      f_equal; lia.
  - assert (Z.min n o = o) as Hno by lia. rewrite Hno in *.
    repeat case_decide; try lia;
      rewrite ?removePeriods_formula by (first [lia | exact Hwf]);
      eexists _, _; (split; [reflexivity|split; [reflexivity|]]);
      f_equal; lia.
Qed.

Lemma getMembershipDays_split_witness :
  Forall wellFormed (periods dates) /\
  exists d1 d2,
    getMembershipDays firstPart (mkdate 2015 5 7) dates = Ok d1 /\
    getMembershipDays secondPart (mkdate 2015 5 7) dates = Ok d2 /\
    getMembershipDays abbott (mkdate 2015 5 7) dates = Ok (d1 + d2).
Proof.
  split; [apply dates_periods_wellFormed|].
  apply getMembershipDays_split.
  - apply dates_periods_wellFormed.
  - reflexivity.
  - reflexivity.
  - reflexivity.
  - by_evaluation.
  - intros n Hn. discriminate Hn.
Defined.

(** ** Further properties of the service data *)

Lemma getMembershipDays_countable m onDate (houseDates : gmap string houseDate) :
  getMembershipDays m onDate houseDates =
  if decide (countable onDate m)
  then removePeriods
         (if decide (StartDate m >= onDate) then [] else periods houseDates)
         (StartDate m) (effectiveEnd m onDate)
         (if decide (StartDate m >= onDate) then 0
          else effectiveEnd m onDate - StartDate m)
  else Err DateRangeError.
Proof.
  rewrite getMembershipDays_cases. unfold countable.
  repeat case_decide; try reflexivity; lia.
Qed.

Lemma getMembershipDays_daysOf m onDate :
  getMembershipDays m onDate dates =
  if decide (countable onDate m) then Ok (daysOf onDate m)
  else Err DateRangeError.
Proof.
  unfold daysOf. rewrite getMembershipDays_countable.
  case_decide; [|reflexivity].
  match goal with
  | |- removePeriods ?ps ?s ?n ?sd = _ =>
      destruct (removePeriods_returns ps s n sd) as [r ->]
  end.
  reflexivity.
Qed.

Lemma daysOf_nonneg onDate m : 0 <= daysOf onDate m.
Proof.
  unfold daysOf. rewrite getMembershipDays_cases.
  repeat case_decide; try lia.
  rewrite removePeriods_formula;
    [|lia|apply dates_periods_wellFormed].
  pose proof (totalOverlap_bound (periods dates) (StartDate m)
                (effectiveEnd m onDate) ltac:(lia)
                dates_periods_wellFormed dates_periods_nonOverlapping).
  lia.
Qed.

Lemma sumDays_nonneg onDate l : 0 <= sumDays onDate l.
Proof.
  induction l as [|m l IH]; simpl; [lia|].
  pose proof (daysOf_nonneg onDate m). lia.
Qed.

Lemma sumDays_fmap onDate l :
  sumDays onDate l = foldr Z.add 0 (daysOf onDate <$> l).
Proof.
  induction l as [|m l IH]; simpl; [reflexivity|].
  rewrite IH. reflexivity.
Qed.


Lemma commonsService_cases l onDate acc :
  commonsService l onDate acc =
  if decide (Forall (countable onDate) (filter isCommons l))
  then Ok (acc.1 + sumDays onDate (filter isCommons l),
           (acc.2 ++ (StartDate <$> filter isCommons l))%list)
  else Err DateRangeError.
Proof.
  revert acc. induction l as [|m l IH]; intros [days starts]; simpl.
  - rewrite app_nil_r. f_equal. f_equal. lia.
  - destruct (decide (House m = "Commons")) as [Hm|Hm].
    + rewrite filter_cons_True by exact Hm.
      rewrite getMembershipDays_daysOf.
      destruct (decide (countable onDate m)) as [Hok|Hbad].
      * rewrite bind_Ok, IH. simpl.
        destruct (decide (Forall (countable onDate) (filter isCommons l)))
          as [Hall|Hnot].
        -- rewrite decide_True by (constructor; assumption).
           rewrite <- app_assoc. simpl. f_equal. f_equal. lia.
        -- rewrite decide_False; [reflexivity|].
           intros Hall. apply Forall_cons in Hall as [_ Hall]. contradiction.
      * rewrite decide_False; [reflexivity|].
        intros Hall. apply Forall_cons in Hall as [Hok _]. contradiction.
    + rewrite filter_cons_False by exact Hm. apply IH.
Qed.

Lemma getServiceDataForMember_cases member onDate :
  getServiceDataForMember member onDate =
  let commons := filter isCommons (items (HouseMemberships member)) in
  if decide (Forall (countable onDate) commons)
  then match merge_sort Z.le (StartDate <$> commons) with
       | [] => Err EmptyResultError
       | startDate :: _ => Ok (startDate, sumDays onDate commons)
       end
  else Err DateRangeError.
Proof.
  unfold getServiceDataForMember.
  destruct (HouseMemberships member) as [m|l]; simpl.
  - destruct (decide (House m = "Commons")) as [Hm|Hm].
    + rewrite filter_cons_True by exact Hm. rewrite filter_nil.
      rewrite getMembershipDays_daysOf.
      destruct (decide (countable onDate m)) as [Hok|Hbad].
      * rewrite decide_True by (constructor; [assumption|constructor]).
        simpl. f_equal. f_equal. lia.
      * rewrite decide_False; [reflexivity|].
        intros Hall. apply Forall_cons in Hall as [Hok _]. contradiction.
    + rewrite filter_cons_False by exact Hm. rewrite filter_nil.
      rewrite decide_True by constructor. reflexivity.
  - rewrite commonsService_cases.
    case_decide; reflexivity.
Qed.

Lemma merge_sort_head (l : list Z) s rest :
  merge_sort Z.le l = s :: rest -> s ∈ l /\ forall x, x ∈ l -> s <= x.
Proof.
  intros Hsort.
  pose proof (merge_sort_Permutation Z.le l) as Hperm.
  pose proof (StronglySorted_merge_sort Z.le l) as Hsorted.
  rewrite Hsort in Hperm, Hsorted.
  apply StronglySorted_inv in Hsorted as [_ Hrest].
  split.
  - rewrite <- Hperm. left.
  - intros x Hx. rewrite <- Hperm in Hx.
    apply elem_of_cons in Hx as [->|Hx]; [lia|].
    rewrite Forall_forall in Hrest. apply Hrest, Hx.
Qed.


Lemma merge_sort_nil_iff (l : list Z) : merge_sort Z.le l = [] <-> l = [].
Proof.
  split; [|intros ->; reflexivity].
  intros Hnil. pose proof (merge_sort_Permutation Z.le l) as Hperm.
  rewrite Hnil in Hperm. symmetry. apply Permutation_nil_l, Hperm.
Qed.

Lemma filter_isCommons_nil_iff l :
  filter isCommons l = [] <-> Forall (fun m => House m <> "Commons") l.
Proof.
  induction l as [|m l IH].
  - split; [constructor|reflexivity].
  - destruct (decide (isCommons m)) as [Hm|Hm].
    + rewrite filter_cons_True by exact Hm. split; [discriminate|].
      intros Hall. apply Forall_cons in Hall as [Hno _]. contradiction.
    + rewrite filter_cons_False by exact Hm. rewrite IH. split.
      * intros Hall. constructor; assumption.
      * intros Hall. apply Forall_cons in Hall as [_ Hall]. exact Hall.
Qed.

(** When [getServiceDataForMember] returns, the date it returns is the
    earliest start date among the member's Commons memberships and the days
    are the sum of what [getMembershipDays] returns for each of them; that
    sum is not negative. *)
Theorem getServiceDataForMember_returns :
  forall member onDate startDate serviceDays,
    getServiceDataForMember member onDate = Ok (startDate, serviceDays) ->
    (exists m, m ∈ filter isCommons (items (HouseMemberships member)) /\
               StartDate m = startDate) /\
    (forall m, m ∈ filter isCommons (items (HouseMemberships member)) ->
               startDate <= StartDate m) /\
    (exists ds,
       Forall2 (fun m d => getMembershipDays m onDate dates = Ok d)
         (filter isCommons (items (HouseMemberships member))) ds /\
       serviceDays = foldr Z.add 0 ds) /\
    0 <= serviceDays.
Proof.
  intros member onDate s total. rewrite getServiceDataForMember_cases. simpl.
  set (commons := filter isCommons (items (HouseMemberships member))).
  case_decide as Hall; [|discriminate].
  destruct (merge_sort Z.le (StartDate <$> commons)) as [|s' rest] eqn:Hsort;
    [discriminate|].
  intros [= -> <-].
  apply merge_sort_head in Hsort as [Hin Hmin].
  split; [|split; [|split]].
  - apply list_elem_of_fmap in Hin as (m & -> & Hm). eauto.
  - intros m Hm. apply Hmin, list_elem_of_fmap. eauto.
  - exists (daysOf onDate <$> commons). split.
    + apply Forall2_fmap_r, Forall_Forall2_diag.
      eapply Forall_impl; [exact Hall|].
      intros m Hm. simpl. rewrite getMembershipDays_daysOf.
      rewrite decide_True by exact Hm. reflexivity.
    + apply sumDays_fmap.
  - apply sumDays_nonneg.
Qed.

Lemma getServiceDataForMember_returns_witness :
  getServiceDataForMember
    (Member (Single openParty) (Single openParty)
            (Listed [lordsOnly; secondPart; firstPart]))
    (mkdate 2015 5 7) = Ok (mkdate 1987 6 11, 10035) /\
  (forall m,
     m ∈ filter isCommons [lordsOnly; secondPart; firstPart] ->
     mkdate 1987 6 11 <= StartDate m) /\
  0 <= 10035.
Proof.
  assert (getServiceDataForMember
            (Member (Single openParty) (Single openParty)
                    (Listed [lordsOnly; secondPart; firstPart]))
            (mkdate 2015 5 7) = Ok (mkdate 1987 6 11, 10035)) as Hrun
    by by_evaluation.
  split; [exact Hrun|].
  destruct (getServiceDataForMember_returns _ _ _ _ Hrun)
    as (_ & Hmin & _ & Hpos).
  split; [exact Hmin|exact Hpos].
Defined.

(** On memberships whose dates have been read, [getServiceDataForMember]
    fails with the start-after-end error exactly when one of the Commons
    memberships, wherever it stands, started before the query date and has
    its effective end before its start; and with [IndexError] exactly when
    the member has no Commons membership. *)
Theorem getServiceDataForMember_failures :
  forall member onDate,
    (getServiceDataForMember member onDate = Err DateRangeError <->
     Exists (fun m => House m = "Commons" /\ StartDate m < onDate /\
                      effectiveEnd m onDate < StartDate m)
       (items (HouseMemberships member))) /\
    (getServiceDataForMember member onDate = Err EmptyResultError <->
     Forall (fun m => House m <> "Commons")
       (items (HouseMemberships member))).
Proof.
  intros member onDate. rewrite getServiceDataForMember_cases. simpl.
  set (l := items (HouseMemberships member)).
  assert (~ Forall (countable onDate) (filter isCommons l) <->
          Exists (fun m => House m = "Commons" /\ StartDate m < onDate /\
                           effectiveEnd m onDate < StartDate m) l) as Hbad.
  { split.
    - intros Hnot. apply not_Forall_Exists in Hnot; [|apply _].
      apply Exists_exists in Hnot as (m & Hm & Hno).
      apply list_elem_of_filter in Hm as [Hcommons Hm].
      apply Exists_exists. exists m. split; [exact Hm|].
      split; [exact Hcommons|]. unfold countable in Hno. simpl in Hno. lia.
    - intros Hex Hall. apply Exists_exists in Hex as (m & Hm & Hc & Hlt & Hend).
      rewrite Forall_forall in Hall.
      assert (countable onDate m) as Hok
        by (apply Hall, list_elem_of_filter; split; assumption).
      unfold countable in Hok. lia. }
  case_decide as Hall.
  - destruct (merge_sort Z.le (StartDate <$> filter isCommons l))
      as [|s rest] eqn:Hsort.
    + apply merge_sort_nil_iff, fmap_nil_inv in Hsort.
      split.
      * split; [discriminate|]. intros Hex. apply Hbad in Hex. contradiction.
      * split; [intros _; apply filter_isCommons_nil_iff, Hsort|reflexivity].
    + split.
      * split; [discriminate|]. intros Hex. apply Hbad in Hex. contradiction.
      * split; [discriminate|]. intros Hnone.
        apply filter_isCommons_nil_iff in Hnone. rewrite Hnone in Hsort.
        discriminate Hsort.
  - split.
    + split; [intros _; apply Hbad, Hall|reflexivity].
    + split; [discriminate|]. intros Hnone.
      apply filter_isCommons_nil_iff in Hnone. rewrite Hnone in Hall.
      exfalso. apply Hall. constructor.
Qed.



(** ** Further properties of attribute resolution *)

Lemma scanMemberships_result today l onDate name :
  Forall (fun x => ~ malformed today x) l ->
  (exists m, m ∈ l /\ covers today m onDate /\
             scanMemberships today l onDate name = Ok (Name m)) \/
  (Forall (fun x => ~ covers today x onDate) l /\
   scanMemberships today l onDate name = Ok name).
Proof.
  induction 1 as [|x l Hx _ IH]; simpl.
  - right. split; [constructor|reflexivity].
  - rewrite isDateInMembership_cases, decide_False by exact Hx. simpl.
    case_bool_decide as Hin.
    + left. exists x. split; [left|]. split; [exact Hin|reflexivity].
    + destruct IH as [(m & Hm & Hc & ->)|[Hnone ->]].
      * left. exists m. split; [right; exact Hm|]. split; [exact Hc|reflexivity].
      * right. split; [constructor; assumption|reflexivity].
Qed.



Lemma isDateInMembership_today today today' m onDate :
  (EndDate m = None ->
   StartDate m <= Z.min today today' /\ onDate <= Z.min today today') ->
  isDateInMembership today m onDate = isDateInMembership today' m onDate.
Proof.
  intros Hopen. unfold isDateInMembership, isDateInRange.
  destruct (EndDate m) as [e|]; [reflexivity|].
  destruct (Hopen eq_refl) as [Hs Ho].
  repeat case_decide; repeat case_bool_decide; simpl; try reflexivity; lia.
Qed.

(** Today's date enters the resolution through open intervals only, and for
    them only when it is before the interval's start or before the query
    date: two runs on different days agree when every open interval has
    started by both days and the query date is not after either. With
    closed intervals only they always agree. *)
Theorem resolution_today_independent :
  forall today today' ms onDate,
    Forall (fun m => EndDate m = None ->
                     StartDate m <= Z.min today today' /\
                     onDate <= Z.min today today') (items ms) ->
    resolveMembership today ms onDate = resolveMembership today' ms onDate.
Proof.
  intros today today' ms onDate Hall.
  rewrite !resolveMembership_items.
  induction Hall as [|m l Hm _ IH]; simpl; [reflexivity|].
  rewrite (isDateInMembership_today today today' m onDate Hm), IH.
  reflexivity.
Qed.

Lemma resolution_today_independent_witness :
  Forall (fun m => EndDate m = None ->
                   StartDate m <= Z.min (mkdate 2016 1 1) (mkdate 2020 1 1) /\
                   mkdate 2015 6 1 <= Z.min (mkdate 2016 1 1) (mkdate 2020 1 1))
    (items (Listed [closedParty; openParty])) /\
  resolveMembership (mkdate 2016 1 1) (Listed [closedParty; openParty])
    (mkdate 2015 6 1)
  = resolveMembership (mkdate 2020 1 1) (Listed [closedParty; openParty])
      (mkdate 2015 6 1).
Proof.
  assert (Forall (fun m => EndDate m = None ->
                   StartDate m <= Z.min (mkdate 2016 1 1) (mkdate 2020 1 1) /\
                   mkdate 2015 6 1 <= Z.min (mkdate 2016 1 1) (mkdate 2020 1 1))
            (items (Listed [closedParty; openParty]))) as Hall.
  { constructor; [intros H; discriminate H|].
    constructor; [intros _; split; by_evaluation|constructor]. }
  split; [exact Hall|].
  apply resolution_today_independent, Hall.
Defined.

(** The two shapes in which the API gives an attribute are treated alike: a
    bare entry resolves as the list of that one entry does, for the
    constituency and for the party. *)
Theorem resolution_shape_independent :
  forall today member onDate,
    getConstituencyForMember today member onDate
    = getConstituencyForMember today
        (Member (Listed (items (Constituencies member)))
                (Listed (items (Parties member)))
                (HouseMemberships member)) onDate /\
    getPartyForMember today member onDate
    = getPartyForMember today
        (Member (Listed (items (Constituencies member)))
                (Listed (items (Parties member)))
                (HouseMemberships member)) onDate.
Proof.
  intros today member onDate.
  unfold getConstituencyForMember, getPartyForMember. simpl.
  rewrite !resolveMembership_items. split; reflexivity.
Qed.

(** ** Retrieval *)

Example buildMnisUrl_between :
  buildMnisUrl "commonsmemberbetween=2010-05-06and2015-05-07"
    ["ParameterA"; "ParameterB"; "ParameterC"]
  = inr ("http://data.parliament.uk/membersdataplatform/"
         +:+ "services/mnis/members/query/House=Commons|Membership=all|"
         +:+ "commonsmemberbetween=2010-05-06and2015-05-07/ParameterA|"
         +:+ "ParameterB|ParameterC").
Proof. by_evaluation. Qed.

Example buildMnisUrl_fails :
  buildMnisUrl "" ["ParameterA"; "ParameterB"; "ParameterC"; "ParameterD"]
  = inl TooManyOutputParameters.
Proof. by_evaluation. Qed.

Example getCommonsMembersOn_url :
  getCommonsMembersOn (fun url => inr url) (mkdate 2015 5 7)
    ["Constituencies"; "Parties"; "HouseMemberships"]
  = inr ("http://data.parliament.uk/membersdataplatform/services/"
         +:+ "mnis/members/query/House=Commons|Membership=all|"
         +:+ "commonsmemberbetween=2015-5-7and2015-5-7/"
         +:+ "Constituencies|Parties|HouseMemberships").
Proof. by_evaluation. Qed.

Example getCommonsMembersAtElection_1979 :
  getCommonsMembersAtElection (fun url => inr url) "1979" ["Parties"]
  = inl InvalidElectionId.
Proof. by_evaluation. Qed.

Lemma getCommonsMembers_limit {Members : Type}
    (service : string -> string + Members) urlParameters outputParameters :
  getCommonsMembers service urlParameters outputParameters
  = inl TooManyOutputParameters
  <-> (3 < length outputParameters)%nat.
Proof.
  unfold getCommonsMembers, buildMnisUrl.
  case_decide; [tauto|].
  destruct (service _); split; first [discriminate | lia].
Qed.

(** The limit of three output parameters holds at every way in: each of
    [getCommonsMembers], [getCommonsMembersBetween], [getCommonsMembersOn]
    and [getCurrentCommonsMembers] fails with the [ParameterError] of
    [buildMnisUrl] exactly when it is given more than three output
    parameters, whatever the service would answer. *)
Theorem output_parameter_limit :
  forall (Members : Type) (service : string -> string + Members)
         urlParameters startDate endDate today outputParameters,
    (getCommonsMembers service urlParameters outputParameters
     = inl TooManyOutputParameters
     <-> (3 < length outputParameters)%nat) /\
    (getCommonsMembersBetween service startDate endDate outputParameters
     = inl TooManyOutputParameters
     <-> (3 < length outputParameters)%nat) /\
    (getCommonsMembersOn service startDate outputParameters
     = inl TooManyOutputParameters
     <-> (3 < length outputParameters)%nat) /\
    (getCurrentCommonsMembers service today outputParameters
     = inl TooManyOutputParameters
     <-> (3 < length outputParameters)%nat).
Proof.
  intros. repeat split; apply getCommonsMembers_limit.
Qed.

(** [getCommonsMembersAtElection] fails with [ElectionIdError] exactly when
    the id is not one of the eight election years, whatever the output
    parameters and the service; with a valid id it fails with the
    [ParameterError] exactly when there are more than three output
    parameters, and otherwise gives what the service answers for the URL of
    that election. *)
Theorem election_id_checked :
  forall (Members : Type) (service : string -> string + Members)
         generalElectionId outputParameters,
    (getCommonsMembersAtElection service generalElectionId outputParameters
     = inl InvalidElectionId
     <-> generalElectionId ∉ validElectionIds) /\
    (getCommonsMembersAtElection service generalElectionId outputParameters
     = inl TooManyOutputParameters
     <-> generalElectionId ∈ validElectionIds /\
         (3 < length outputParameters)%nat) /\
    (generalElectionId ∈ validElectionIds ->
     (length outputParameters <= 3)%nat ->
     getCommonsMembersAtElection service generalElectionId outputParameters
     = match service
               ("http://data.parliament.uk/membersdataplatform/services/"
                +:+ "mnis/members/query/House=Commons|Membership=all|"
                +:+ ("returnedatelection=" +:+ generalElectionId
                     +:+ "%20General%20Election")
                +:+ "/" +:+ String.concat "|" outputParameters) with
       | inl detail => inl (ServiceError detail)
       | inr members => inr members
       end).
Proof.
  intros Members service id ops. unfold getCommonsMembersAtElection.
  destruct (decide (id ∉ validElectionIds)) as [Hbad|Hgood].
  - split; [tauto|]. split; [|tauto].
    split; [discriminate|]. intros [Hin _]. contradiction.
  - assert (id ∈ validElectionIds) as Hin
      by (destruct (decide (id ∈ validElectionIds)); tauto).
    split; [|split].
    + split; [|contradiction].
      unfold getCommonsMembers, buildMnisUrl.
      case_decide; [discriminate|]. destruct (service _); discriminate.
    + rewrite getCommonsMembers_limit. tauto.
    + intros _ Hlen. unfold getCommonsMembers, buildMnisUrl.
      rewrite decide_False by lia. reflexivity.
Qed.

(** ** Summaries *)

Lemma summariseMember_Ok today m onDate row :
  summariseMember today m onDate = Ok row <-> summarises today onDate m row.
Proof.
  unfold summariseMember, summarises.
  destruct (getConstituencyForMember today (attributes m) onDate) as [c|e];
    simpl; [|split; [discriminate|intros (_ & _ & H & _); discriminate H]].
  destruct (getPartyForMember today (attributes m) onDate) as [p|e];
    simpl; [|split; [discriminate|intros (_ & _ & _ & H & _); discriminate H]].
  destruct (getServiceDataForMember (attributes m) onDate) as [[s d]|e];
    simpl; [|split; [discriminate
                    |intros (_ & _ & _ & _ & _ & _ & H); discriminate H]].
  split.
  - intros [= <-]. simpl. repeat split; reflexivity.
  - destruct row as [i l c' p' b g s' d']. simpl.
    intros (-> & -> & [= ->] & [= ->] & -> & -> & [= -> ->]). reflexivity.
Qed.

Lemma summariseMembers_Ok today members onDate summary rows :
  summariseMembers today members onDate summary = Ok rows <->
  exists new, rows = (summary ++ new)%list /\
              Forall2 (summarises today onDate) members new.
Proof.
  revert summary. induction members as [|m members IH]; intros summary; simpl.
  - split.
    + intros [= <-]. exists []. rewrite app_nil_r. split; [reflexivity|constructor].
    + intros (new & -> & Hnew). apply Forall2_nil_inv_l in Hnew as ->.
      rewrite app_nil_r. reflexivity.
  - destruct (summariseMember today m onDate) as [row|e] eqn:Hm; simpl.
    + rewrite IH. apply summariseMember_Ok in Hm. split.
      * intros (new & -> & Hnew). exists (row :: new).
        rewrite <- app_assoc. split; [reflexivity|constructor; assumption].
      * intros (new & -> & Hnew).
        apply Forall2_cons_inv_l in Hnew as (row' & new' & Hrow & Hnew & ->).
        assert (row' = row) as ->.
        { apply summariseMember_Ok in Hm, Hrow. congruence. }
        exists new'. rewrite <- app_assoc. split; [reflexivity|exact Hnew].
    + split; [discriminate|].
      intros (new & _ & Hnew).
      apply Forall2_cons_inv_l in Hnew as (row' & _ & Hrow & _).
      apply summariseMember_Ok in Hrow. congruence.
Qed.

(** [getSummaryDataForMembers] returns a list exactly when it has one row
    for each member, in the order of the members, each row holding what the
    getters give for that member on the query date. *)
Theorem getSummaryDataForMembers_rows :
  forall today members onDate rows,
    getSummaryDataForMembers today members onDate = Ok rows <->
    Forall2 (summarises today onDate) members rows.
Proof.
  intros today members onDate rows. unfold getSummaryDataForMembers.
  rewrite summariseMembers_Ok. split.
  - intros (new & -> & Hnew). exact Hnew.
  - intros Hrows. exists rows. split; [reflexivity|exact Hrows].
Qed.

Example summary_abbott :
  getSummaryDataForMembers (mkdate 2016 1 1) [abbottRecord] (mkdate 2015 5 7)
  = Ok [SummaryRow "172" "Abbott, Ms Diane"
          "Hackney North and Stoke Newington" "Labour"
          (inl (mkdate 1953 9 27)) "F" (mkdate 1987 6 11) 10035].
Proof. by_evaluation. Qed.

Example summary_with_peer :
  getSummaryDataForMembers (mkdate 2016 1 1) [abbottRecord; peerRecord]
    (mkdate 2015 5 7) = Err EmptyResultError.
Proof. by_evaluation. Qed.

(** ** Summaries of the records as MNIS sends them *)

Example summary_abbott_json :
  Json.getSummaryDataForMembers convertMnisDatetime (mkdate 2016 1 1)
    [abbottJson] (mkdate 2015 5 7)
  = Returns [SummaryRow "172" "Abbott, Ms Diane"
               "Hackney North and Stoke Newington" "Labour"
               (inl (mkdate 1953 9 27)) "F" (mkdate 1987 6 11) 10035].
Proof. by_evaluation. Qed.

Example summary_unreadable_birth_date :
  Json.getSummaryDataForMembers convertMnisDatetime (mkdate 2016 1 1)
    [abbottJson; peerJson] (mkdate 2015 5 7) = Raises ValueError.
Proof. by_evaluation. Qed.

Example summary_unread_lords_date :
  Json.getSummaryDataForMembers convertMnisDatetime (mkdate 2016 1 1)
    [formerPeerJson] (mkdate 2015 5 7)
  = Returns [SummaryRow "2" "Member, Mr" "Not serving on 2015-05-07" "Labour"
               (inr "") "M" (mkdate 2010 5 6) 1789].
Proof. by_evaluation. Qed.

Lemma bind_Returns {A B : Type} (a : A) (f : A -> outcome B) :
  (Returns a ≫= f) = f a.
Proof. reflexivity. Qed.

Lemma decode_fields convert x x' :
  decode convert x = Some x' ->
  Name x' = Json.Name x /\ House x' = Json.House x /\
  convert (Json.StartDate x) = Some (StartDate x').
Proof.
  unfold decode.
  destruct (convert (Json.StartDate x)) as [s|]; simpl; [|discriminate].
  destruct (Json.EndDate x) as [text|]; simpl.
  - destruct (convert text) as [e|]; simpl; [|discriminate].
    intros [= <-]. repeat split.
  - intros [= <-]. repeat split.
Qed.

Lemma isDateInMembership_decode convert today x x' onDate :
  decode convert x = Some x' ->
  Json.isDateInMembership convert today x onDate
  = lift (isDateInMembership today x' onDate).
Proof.
  unfold decode, Json.isDateInMembership, Json.convertMnisDatetime,
    isDateInMembership.
  destruct (convert (Json.StartDate x)) as [s|]; simpl; [|discriminate].
  destruct (Json.EndDate x) as [text|]; simpl.
  - destruct (convert text) as [e|]; simpl; [|discriminate].
    intros [= <-]. reflexivity.
  - intros [= <-]. reflexivity.
Qed.

Lemma getMembershipDays_decode convert x x' onDate
    (houseDates : gmap string houseDate) :
  decode convert x = Some x' ->
  Json.getMembershipDays convert x onDate houseDates
  = lift (getMembershipDays x' onDate houseDates).
Proof.
  unfold decode, Json.getMembershipDays, Json.convertMnisDatetime,
    getMembershipDays.
  destruct (convert (Json.StartDate x)) as [s|]; simpl; [|discriminate].
  destruct (Json.EndDate x) as [text|]; simpl.
  - destruct (convert text) as [e|]; simpl; [|discriminate].
    intros [= <-]. simpl. repeat case_decide; reflexivity.
  - intros [= <-]. simpl. repeat case_decide; reflexivity.
Qed.

Lemma scanMemberships_decode convert today l l' onDate name :
  Forall2 (fun x x' => decode convert x = Some x') l l' ->
  Json.scanMemberships convert today l onDate name
  = lift (scanMemberships today l' onDate name).
Proof.
  induction 1 as [|x x' l l' Hx _ IH]; simpl; [reflexivity|].
  rewrite (isDateInMembership_decode _ _ _ _ _ Hx).
  apply decode_fields in Hx as (Hname & _ & _).
  destruct (isDateInMembership today x' onDate) as [[|]|e]; simpl.
  - rewrite Hname. reflexivity.
  - exact IH.
  - reflexivity.
Qed.

Lemma resolveMembership_items_json convert today ms onDate :
  Json.resolveMembership convert today ms onDate
  = Json.scanMemberships convert today (items ms) onDate (notServing onDate).
Proof.
  destruct ms as [m|l]; [|reflexivity]. simpl.
  destruct (Json.isDateInMembership convert today m onDate) as [[|]|e];
    reflexivity.
Qed.

Lemma decodeEntries_items convert ms ms' :
  decodeEntries convert ms = Some ms' ->
  Forall2 (fun x x' => decode convert x = Some x') (items ms) (items ms').
Proof.
  destruct ms as [m|l]; simpl.
  - destruct (decode convert m) as [m'|] eqn:Hm; simpl; [|discriminate].
    intros [= <-]. simpl. constructor; [exact Hm|constructor].
  - destruct (mapM (decode convert) l) as [l'|] eqn:Hl; simpl; [|discriminate].
    intros [= <-]. simpl. apply mapM_Some. exact Hl.
Qed.

Lemma resolveMembership_decode convert today ms ms' onDate :
  decodeEntries convert ms = Some ms' ->
  Json.resolveMembership convert today ms onDate
  = lift (resolveMembership today ms' onDate).
Proof.
  intros Hms. rewrite resolveMembership_items_json, resolveMembership_items.
  apply scanMemberships_decode, decodeEntries_items, Hms.
Qed.

Lemma commonsService_decode convert l l' onDate acc :
  Forall2 (fun x x' => decode convert x = Some x') l l' ->
  Json.commonsService convert l onDate acc
  = lift (commonsService l' onDate acc).
Proof.
  intros Hl. revert acc.
  induction Hl as [|x x' l l' Hx _ IH]; intros acc; simpl; [reflexivity|].
  rewrite (getMembershipDays_decode _ _ _ _ _ Hx).
  apply decode_fields in Hx as (_ & Hhouse & Hstart).
  rewrite Hhouse.
  destruct (decide (Json.House x = "Commons")) as [Hc|Hc]; [|apply IH].
  destruct (getMembershipDays x' onDate dates) as [d|e]; simpl;
    [|reflexivity].
  unfold Json.convertMnisDatetime. rewrite Hstart. simpl. apply IH.
Qed.

Lemma getServiceDataForMember_items_json convert m onDate :
  Json.getServiceDataForMember convert m onDate
  = (acc ← Json.commonsService convert (items (Json.HouseMemberships m))
             onDate (0, []);
     match merge_sort Z.le acc.2 with
     | [] => Raises (Exn EmptyResultError)
     | startDate :: _ => Returns (startDate, acc.1)
     end).
Proof.
  unfold Json.getServiceDataForMember.
  destruct (Json.HouseMemberships m) as [x|l]; [|reflexivity]. simpl.
  destruct (decide (Json.House x = "Commons")) as [Hc|Hc]; [|reflexivity].
  destruct (Json.getMembershipDays convert x onDate dates) as [d|e]; simpl;
    [|reflexivity].
  destruct (Json.convertMnisDatetime convert (Json.StartDate x)) as [s|e'];
    reflexivity.
Qed.

Lemma getServiceDataForMember_items member onDate :
  getServiceDataForMember member onDate
  = (acc ← commonsService (items (HouseMemberships member)) onDate (0, []);
     match merge_sort Z.le acc.2 with
     | [] => Err EmptyResultError
     | startDate :: _ => Ok (startDate, acc.1)
     end).
Proof.
  unfold getServiceDataForMember.
  destruct (HouseMemberships member) as [x|l]; [|reflexivity]. simpl.
  destruct (decide (House x = "Commons")) as [Hc|Hc]; [|reflexivity].
  destruct (getMembershipDays x onDate dates) as [d|e]; reflexivity.
Qed.

Lemma getServiceDataForMember_decode convert m member onDate :
  decodeEntries convert (Json.HouseMemberships m)
  = Some (HouseMemberships member) ->
  Json.getServiceDataForMember convert m onDate
  = lift (getServiceDataForMember member onDate).
Proof.
  intros Hm.
  rewrite getServiceDataForMember_items_json, getServiceDataForMember_items.
  rewrite (commonsService_decode _ _ _ _ _ (decodeEntries_items _ _ _ Hm)).
  destruct (commonsService (items (HouseMemberships member)) onDate (0, []))
    as [acc|e]; [|reflexivity].
  change (lift (Ok acc)) with (Returns acc).
  rewrite bind_Returns, bind_Ok. cbv beta.
  match goal with
  | |- context [merge_sort ?R ?l] => destruct (merge_sort R l)
  end; reflexivity.
Qed.

Lemma decodeMember_fields convert m m' :
  decodeMember convert m = Some m' ->
  Member_Id m' = Json.Member_Id m /\
  ListAs m' = Json.ListAs m /\
  Gender m' = Json.Gender m /\
  Json.getDateOfBirthForMember convert m
  = Returns (getDateOfBirthForMember m') /\
  decodeEntries convert (Json.Constituencies m)
  = Some (Constituencies (attributes m')) /\
  decodeEntries convert (Json.Parties m) = Some (Parties (attributes m')) /\
  decodeEntries convert (Json.HouseMemberships m)
  = Some (HouseMemberships (attributes m')).
Proof.
  unfold decodeMember, Json.getDateOfBirthForMember, getDateOfBirthForMember,
    Json.convertMnisDatetime.
  destruct (decodeEntries convert (Json.Constituencies m)) as [c|];
    [|destruct (Json.DateOfBirth m) as [text|];
      [destruct (convert text)|]; discriminate].
  destruct (decodeEntries convert (Json.Parties m)) as [p|];
    [|destruct (Json.DateOfBirth m) as [text|];
      [destruct (convert text)|]; discriminate].
  destruct (decodeEntries convert (Json.HouseMemberships m)) as [h|];
    [|destruct (Json.DateOfBirth m) as [text|];
      [destruct (convert text)|]; discriminate].
  destruct (Json.DateOfBirth m) as [text|]; simpl.
  - destruct (convert text) as [d|]; simpl; [|discriminate].
    intros [= <-]. simpl. repeat split.
  - intros [= <-]. simpl. repeat split.
Qed.

Lemma summariseMember_decode convert today m m' onDate :
  decodeMember convert m = Some m' ->
  Json.summariseMember convert today m onDate
  = lift (summariseMember today m' onDate).
Proof.
  intros Hm.
  apply decodeMember_fields in Hm as (Hid & Hlist & Hg & Hb & Hc & Hp & Hh).
  unfold Json.summariseMember, summariseMember,
    Json.getConstituencyForMember, getConstituencyForMember,
    Json.getPartyForMember, getPartyForMember,
    Json.getIdForMember, getIdForMember,
    Json.getListNameForMember, getListNameForMember,
    Json.getGenderForMember, getGenderForMember.
  rewrite (resolveMembership_decode _ _ _ _ _ Hc).
  rewrite (resolveMembership_decode _ _ _ _ _ Hp).
  rewrite Hb, (getServiceDataForMember_decode _ _ _ _ Hh), Hid, Hlist, Hg.
  destruct (resolveMembership today (Constituencies (attributes m')) onDate)
    as [c|e]; simpl; [|reflexivity].
  destruct (resolveMembership today (Parties (attributes m')) onDate)
    as [p|e]; simpl; [|reflexivity].
  destruct (getServiceDataForMember (attributes m') onDate) as [sd|e];
    reflexivity.
Qed.

Lemma summariseMembers_decode convert today members members' onDate summary :
  Forall2 (fun m m' => decodeMember convert m = Some m') members members' ->
  Json.summariseMembers convert today members onDate summary
  = lift (summariseMembers today members' onDate summary).
Proof.
  intros Hl. revert summary.
  induction Hl as [|m m' l l' Hm _ IH]; intros summary; simpl; [reflexivity|].
  rewrite (summariseMember_decode _ _ _ _ _ Hm).
  destruct (summariseMember today m' onDate) as [row|e]; simpl;
    [apply IH|reflexivity].
Qed.

(** The functions on dates are the functions of the source on the records
    whose dates can be read.  For a membership both of whose dates
    [convertMnisDatetime] reads, [isDateInMembership] and
    [getMembershipDays] give what they give on the dates read; for a member
    all of whose dates it reads, so do the getters of the constituency, the
    party, the date of birth and the service data; and for a list of such
    members [getSummaryDataForMembers] gives the same rows, or raises the
    same error. *)
Theorem readable_records_agree :
  forall convert today onDate,
    (forall x x' (houseDates : gmap string houseDate),
       decode convert x = Some x' ->
       Json.isDateInMembership convert today x onDate
       = lift (isDateInMembership today x' onDate) /\
       Json.getMembershipDays convert x onDate houseDates
       = lift (getMembershipDays x' onDate houseDates)) /\
    (forall m m',
       decodeMember convert m = Some m' ->
       Json.getConstituencyForMember convert today m onDate
       = lift (getConstituencyForMember today (attributes m') onDate) /\
       Json.getPartyForMember convert today m onDate
       = lift (getPartyForMember today (attributes m') onDate) /\
       Json.getDateOfBirthForMember convert m
       = Returns (getDateOfBirthForMember m') /\
       Json.getServiceDataForMember convert m onDate
       = lift (getServiceDataForMember (attributes m') onDate)) /\
    (forall members members',
       Forall2 (fun m m' => decodeMember convert m = Some m')
         members members' ->
       Json.getSummaryDataForMembers convert today members onDate
       = lift (getSummaryDataForMembers today members' onDate)).
Proof.
  intros convert today onDate. split; [|split].
  - intros x x' houseDates Hx. split.
    + apply isDateInMembership_decode, Hx.
    + apply getMembershipDays_decode, Hx.
  - intros m m' Hm.
    apply decodeMember_fields in Hm as (_ & _ & _ & Hb & Hc & Hp & Hh).
    split; [apply resolveMembership_decode, Hc|].
    split; [apply resolveMembership_decode, Hp|].
    split; [exact Hb|apply getServiceDataForMember_decode, Hh].
  - intros members members' Hl. apply summariseMembers_decode, Hl.
Qed.

Lemma readable_records_agree_witness :
  decodeMember convertMnisDatetime abbottJson = Some abbottRecord /\
  Json.getSummaryDataForMembers convertMnisDatetime (mkdate 2016 1 1)
    [abbottJson] (mkdate 2015 5 7)
  = lift (getSummaryDataForMembers (mkdate 2016 1 1) [abbottRecord]
            (mkdate 2015 5 7)).
Proof.
  assert (decodeMember convertMnisDatetime abbottJson = Some abbottRecord)
    as Hm by by_evaluation.
  split; [exact Hm|].
  destruct (readable_records_agree convertMnisDatetime (mkdate 2016 1 1)
              (mkdate 2015 5 7)) as (_ & _ & Hsummary).
  apply Hsummary. constructor; [exact Hm|constructor].
Defined.

Lemma summariseMember_Raises convert today m onDate e :
  Json.summariseMember convert today m onDate = Raises e <->
  failsWith convert today onDate m e.
Proof.
  unfold Json.summariseMember, failsWith.
  destruct (Json.getConstituencyForMember convert today m onDate) as [c|e1];
    simpl.
  - destruct (Json.getPartyForMember convert today m onDate) as [p|e2];
      simpl.
    + destruct (Json.getDateOfBirthForMember convert m) as [b|e3]; simpl.
      * destruct (Json.getServiceDataForMember convert m onDate)
          as [sd|e4]; simpl.
        -- split; [discriminate|].
           intros [H|[[_ H]|[(_ & _ & H)|(_ & _ & _ & H)]]]; discriminate H.
        -- split.
           ++ intros [= ->]. right. right. right.
              repeat (split; [eexists; reflexivity|]). reflexivity.
           ++ intros [H|[[_ H]|[(_ & _ & H)|(_ & _ & _ & H)]]];
                try discriminate H. congruence.
      * split.
        -- intros [= ->]. right. right. left.
           repeat (split; [eexists; reflexivity|]). reflexivity.
        -- intros [H|[[_ H]|[(_ & _ & H)|(_ & _ & [b Hb] & _)]]];
             try discriminate; congruence.
    + split.
      * intros [= ->]. right. left.
        split; [eexists; reflexivity|reflexivity].
      * intros [H|[[_ H]|[(_ & [p Hp] & _)|(_ & [p Hp] & _)]]];
          try discriminate; congruence.
  - split.
    + intros [= ->]. left. reflexivity.
    + intros [H|[[[c Hc] _]|[([c Hc] & _)|([c Hc] & _)]]];
        try discriminate; congruence.
Qed.

Lemma summariseMember_Returns convert today m onDate :
  (exists row, Json.summariseMember convert today m onDate = Returns row) <->
  forall e, ~ failsWith convert today onDate m e.
Proof.
  split.
  - intros [row Hrow] e He. apply summariseMember_Raises in He. congruence.
  - intros Hnone.
    destruct (Json.summariseMember convert today m onDate) as [row|e] eqn:Hm;
      [eauto|].
    apply summariseMember_Raises in Hm. exfalso. exact (Hnone e Hm).
Qed.

Lemma summariseMembers_Raises convert today members onDate summary e :
  Json.summariseMembers convert today members onDate summary = Raises e <->
  exists pre m post,
    members = (pre ++ m :: post)%list /\
    Forall (fun x => forall e', ~ failsWith convert today onDate x e') pre /\
    failsWith convert today onDate m e.
Proof.
  revert summary. induction members as [|m members IH]; intros summary; simpl.
  - split; [discriminate|].
    intros (pre & x & post & H & _). destruct pre; discriminate H.
  - destruct (Json.summariseMember convert today m onDate) as [row|e']
      eqn:Hm; simpl.
    + assert (forall e', ~ failsWith convert today onDate m e') as Hok
        by (apply summariseMember_Returns; eauto).
      rewrite IH. split.
      * intros (pre & x & post & -> & Hpre & Hx).
        exists (m :: pre), x, post. split; [reflexivity|].
        split; [constructor; assumption|exact Hx].
      * intros (pre & x & post & Hl & Hpre & Hx).
        destruct pre as [|y pre]; simpl in Hl; injection Hl as -> ->.
        -- exfalso. exact (Hok e Hx).
        -- apply Forall_cons in Hpre as [_ Hpre]. eauto 6.
    + apply summariseMember_Raises in Hm. split.
      * intros [= ->]. exists [], m, members.
        split; [reflexivity|]. split; [constructor|exact Hm].
      * intros (pre & x & post & Hl & Hpre & Hx).
        destruct pre as [|y pre]; simpl in Hl; injection Hl as -> ->.
        -- apply summariseMember_Raises in Hm, Hx. congruence.
        -- apply Forall_cons in Hpre as [Hy _].
           exfalso. exact (Hy e' Hm).
Qed.

(** [getSummaryDataForMembers] gives no partial summary: it raises exactly
    when the data of some member cannot be got, and then raises the error of
    the first member in the list for which the constituency, the party, the
    date of birth or the service data (got in that order) raises. *)
Theorem getSummaryDataForMembers_first_failure :
  forall convert today members onDate e,
    Json.getSummaryDataForMembers convert today members onDate = Raises e <->
    exists pre m post,
      members = (pre ++ m :: post)%list /\
      Forall (fun x => forall e', ~ failsWith convert today onDate x e') pre /\
      failsWith convert today onDate m e.
Proof.
  intros. apply summariseMembers_Raises.
Qed.

Lemma Forall_exists_Forall2 {A B : Type} (R : A -> B -> Prop) (l : list A) :
  Forall (fun x => exists y, R x y) l -> exists k, Forall2 R l k.
Proof.
  induction 1 as [|x l [y Hy] _ [k IH]].
  - exists []. constructor.
  - exists (y :: k). constructor; assumption.
Qed.

Lemma resolveMembership_readable convert today ms onDate :
  Forall (readableInterval convert today) (items ms) ->
  exists name, Json.resolveMembership convert today ms onDate = Returns name.
Proof.
  intros Hall. rewrite resolveMembership_items_json.
  destruct (Forall_exists_Forall2 _ _ Hall) as [l' Hl'].
  assert (Forall2 (fun x x' => decode convert x = Some x') (items ms) l')
    as Hdec by (eapply Forall2_impl; [exact Hl'|intros x x' [H _]; exact H]).
  assert (Forall (fun x' => ~ malformed today x') l') as Hwf.
  { clear Hdec. induction Hl' as [|x x' l k [_ Hx] _ IH]; constructor;
      [exact Hx|apply IH]. apply Forall_cons in Hall as [_ Hall]. exact Hall. }
  rewrite (scanMemberships_decode _ _ _ _ _ _ Hdec).
  destruct (scanMemberships_result today l' onDate (notServing onDate) Hwf)
    as [(m & _ & _ & ->)|[_ ->]]; simpl; eauto.
Qed.

Lemma commonsService_readable convert l onDate acc :
  Forall (fun x => Json.House x = "Commons" ->
                   exists x', decode convert x = Some x' /\
                              countable onDate x') l ->
  exists days starts,
    Json.commonsService convert l onDate acc
    = Returns (days, (acc.2 ++ starts)%list) /\
    (Exists (fun x => Json.House x = "Commons") l -> starts <> []).
Proof.
  intros Hall. revert acc.
  induction Hall as [|x l Hx _ IH]; intros acc; simpl.
  - exists acc.1, []. rewrite app_nil_r. split; [destruct acc; reflexivity|].
    intros Hex. apply Exists_nil in Hex. contradiction.
  - destruct (decide (Json.House x = "Commons")) as [Hc|Hc].
    + destruct (Hx Hc) as (x' & Hdec & Hcount).
      rewrite (getMembershipDays_decode _ _ _ _ _ Hdec).
      rewrite getMembershipDays_daysOf, decide_True by exact Hcount.
      apply decode_fields in Hdec as (_ & _ & Hstart).
      simpl. unfold Json.convertMnisDatetime. rewrite Hstart. simpl.
      destruct (IH (acc.1 + daysOf onDate x',
                    (acc.2 ++ [StartDate x'])%list))
        as (days & starts & -> & _).
      exists days, (StartDate x' :: starts). simpl.
      rewrite <- app_assoc. split; [reflexivity|]. intros _. discriminate.
    + destruct (IH acc) as (days & starts & -> & Hne).
      exists days, starts. split; [reflexivity|].
      intros Hex. apply Exists_cons in Hex as [Hex|Hex];
        [contradiction|exact (Hne Hex)].
Qed.

Lemma getServiceDataForMember_readable convert m onDate :
  Exists (fun x => Json.House x = "Commons")
    (items (Json.HouseMemberships m)) ->
  Forall (fun x => Json.House x = "Commons" ->
                   exists x', decode convert x = Some x' /\
                              countable onDate x')
    (items (Json.HouseMemberships m)) ->
  exists service,
    Json.getServiceDataForMember convert m onDate = Returns service.
Proof.
  intros Hsome Hall. rewrite getServiceDataForMember_items_json.
  destruct (commonsService_readable convert _ onDate (0, []) Hall)
    as (days & starts & -> & Hne).
  simpl.
  destruct (merge_sort Z.le starts) as [|s rest] eqn:Hsort; [|eauto].
  apply (proj1 (merge_sort_nil_iff _)) in Hsort.
  exfalso. exact (Hne Hsome Hsort).
Qed.

Lemma summariseMember_readable convert today m onDate :
  wellRecorded convert today onDate m ->
  exists row, Json.summariseMember convert today m onDate = Returns row.
Proof.
  intros (Hb & Hc & Hp & Hsome & Hall).
  unfold Json.summariseMember, Json.getConstituencyForMember,
    Json.getPartyForMember.
  destruct (resolveMembership_readable convert today _ onDate Hc) as [c ->].
  destruct (resolveMembership_readable convert today _ onDate Hp) as [p ->].
  destruct (getServiceDataForMember_readable convert m onDate Hsome Hall)
    as [sd ->].
  simpl. unfold Json.getDateOfBirthForMember, Json.convertMnisDatetime.
  destruct (Json.DateOfBirth m) as [text|]; simpl; [|eauto].
  destruct (Hb text eq_refl) as [d ->]. simpl. eauto.
Qed.

Lemma summariseMembers_readable convert today members onDate summary :
  Forall (wellRecorded convert today onDate) members ->
  exists rows,
    Json.summariseMembers convert today members onDate summary
    = Returns (summary ++ rows)%list /\
    length rows = length members.
Proof.
  intros Hall. revert summary.
  induction Hall as [|m members Hm _ IH]; intros summary; simpl.
  - exists []. rewrite app_nil_r. split; reflexivity.
  - destruct (summariseMember_readable convert today m onDate Hm)
      as [row ->]. simpl.
    destruct (IH (summary ++ [row])%list) as (rows & -> & Hlen).
    exists (row :: rows). rewrite <- app_assoc. simpl.
    split; [reflexivity|]. rewrite Hlen. reflexivity.
Qed.

(** [getSummaryDataForMembers] returns a summary, of as many rows as there
    are members, whenever every member is well recorded: a date of birth
    that is a text can be read; the dates of every constituency and party
    interval can be read, and none of these intervals has its start after
    its effective end; there is at least one Commons membership; and the
    dates of every Commons membership can be read, and none that started
    before the query date has its end before its start.  Nothing is asked
    of the dates of the other house memberships. *)
Theorem getSummaryDataForMembers_succeeds :
  forall convert today members onDate,
    Forall (wellRecorded convert today onDate) members ->
    exists rows,
      Json.getSummaryDataForMembers convert today members onDate
      = Returns rows /\
      length rows = length members.
Proof.
  intros convert today members onDate Hall.
  exact (summariseMembers_readable convert today members onDate [] Hall).
Qed.

Lemma getSummaryDataForMembers_succeeds_witness :
  Forall (wellRecorded convertMnisDatetime (mkdate 2016 1 1)
            (mkdate 2015 5 7)) [abbottJson; formerPeerJson] /\
  exists rows,
    Json.getSummaryDataForMembers convertMnisDatetime (mkdate 2016 1 1)
      [abbottJson; formerPeerJson] (mkdate 2015 5 7) = Returns rows /\
    length rows = length [abbottJson; formerPeerJson].
Proof.
  assert (Forall (wellRecorded convertMnisDatetime (mkdate 2016 1 1)
                    (mkdate 2015 5 7)) [abbottJson; formerPeerJson]) as Hall.
  { constructor; [|constructor; [|constructor]].
    - split; [intros text [= <-]; eexists; by_evaluation|].
      split; [constructor; [|constructor]|].
      { eexists. split; [by_evaluation|by_evaluation]. }
      split; [constructor; [|constructor]|].
      { eexists. split; [by_evaluation|by_evaluation]. }
      split; [left; reflexivity|].
      constructor; [|constructor].
      intros _. eexists. split; [by_evaluation|]. right. by_evaluation.
    - split; [intros text [=]|].
      split; [constructor; [|constructor]|].
      { eexists. split; [by_evaluation|by_evaluation]. }
      split; [constructor; [|constructor]|].
      { eexists. split; [by_evaluation|by_evaluation]. }
      split; [right; left; reflexivity|].
      constructor; [intros [=]|constructor; [|constructor]].
      intros _. eexists. split; [by_evaluation|]. right. by_evaluation. }
  split; [exact Hall|].
  apply getSummaryDataForMembers_succeeds, Hall.
Defined.

Lemma isDateInMembership_json_cases convert today x onDate :
  Json.isDateInMembership convert today x onDate =
  match decode convert x with
  | Some x' => lift (isDateInMembership today x' onDate)
  | None => Raises ValueError
  end.
Proof.
  destruct (decode convert x) as [x'|] eqn:Hx;
    [apply isDateInMembership_decode, Hx|].
  unfold decode in Hx.
  unfold Json.isDateInMembership, Json.convertMnisDatetime.
  destruct (convert (Json.StartDate x)) as [s|]; simpl in *; [|reflexivity].
  destruct (Json.EndDate x) as [text|]; simpl in *; [|discriminate].
  destruct (convert text) as [d|]; simpl in *; [discriminate|reflexivity].
Qed.

Lemma getMembershipDays_json_cases convert x onDate
    (houseDates : gmap string houseDate) :
  Json.getMembershipDays convert x onDate houseDates =
  match decode convert x with
  | Some x' => lift (getMembershipDays x' onDate houseDates)
  | None => Raises ValueError
  end.
Proof.
  destruct (decode convert x) as [x'|] eqn:Hx;
    [apply getMembershipDays_decode, Hx|].
  unfold decode in Hx.
  unfold Json.getMembershipDays, Json.convertMnisDatetime.
  destruct (convert (Json.StartDate x)) as [s|]; simpl in *; [|reflexivity].
  destruct (Json.EndDate x) as [text|]; simpl in *; [|discriminate].
  destruct (convert text) as [d|]; simpl in *; [discriminate|reflexivity].
Qed.

Lemma scanMemberships_json_errors convert today l onDate name e :
  Json.scanMemberships convert today l onDate name = Raises e ->
  e = ValueError \/ e = Exn RangeCheckError.
Proof.
  induction l as [|x l IH]; simpl; [discriminate|].
  rewrite isDateInMembership_json_cases.
  destruct (decode convert x) as [x'|]; [|intros [= <-]; left; reflexivity].
  rewrite isDateInMembership_cases.
  destruct (decide (malformed today x')) as [Hbad|Hgood]; simpl.
  - intros [= <-]. right. reflexivity.
  - destruct (bool_decide (covers today x' onDate)); [discriminate|exact IH].
Qed.

Lemma commonsService_json_errors convert l onDate acc e :
  Json.commonsService convert l onDate acc = Raises e ->
  e = ValueError \/ e = Exn DateRangeError.
Proof.
  revert acc. induction l as [|x l IH]; intros acc; simpl; [discriminate|].
  destruct (decide (Json.House x = "Commons")) as [Hc|Hc]; [|apply IH].
  rewrite getMembershipDays_json_cases.
  destruct (decode convert x) as [x'|]; [|intros [= <-]; left; reflexivity].
  rewrite getMembershipDays_daysOf.
  destruct (decide (countable onDate x')) as [Hok|Hbad]; simpl;
    [|intros [= <-]; right; reflexivity].
  unfold Json.convertMnisDatetime.
  destruct (convert (Json.StartDate x)) as [s|]; simpl;
    [apply IH|intros [= <-]; left; reflexivity].
Qed.

Lemma getServiceDataForMember_json_errors convert m onDate e :
  Json.getServiceDataForMember convert m onDate = Raises e ->
  e = ValueError \/ e = Exn DateRangeError \/ e = Exn EmptyResultError.
Proof.
  rewrite getServiceDataForMember_items_json.
  destruct (Json.commonsService convert (items (Json.HouseMemberships m))
              onDate (0, [])) as [acc|e'] eqn:Hrun; simpl.
  - match goal with
    | |- context [merge_sort ?R ?l] => destruct (merge_sort R l)
    end; [|discriminate].
    intros [= <-]. right. right. reflexivity.
  - intros [= <-]. apply commonsService_json_errors in Hrun. tauto.
Qed.

(** On records that hold every key the functions read, with a text for
    every start date, [getSummaryDataForMembers] raises nothing but the
    [ValueError] of [convertMnisDatetime] on a text it cannot read, the
    [MembershipError] of [isDateInRange], the start-after-end
    [MembershipError] of [getMembershipDays] and the [IndexError] of a
    member without Commons membership. *)
Theorem getSummaryDataForMembers_errors :
  forall convert today members onDate e,
    Json.getSummaryDataForMembers convert today members onDate = Raises e ->
    e = ValueError \/ e = Exn RangeCheckError \/
    e = Exn DateRangeError \/ e = Exn EmptyResultError.
Proof.
  intros convert today members onDate e He.
  apply summariseMembers_Raises in He as (pre & m & post & _ & _ & Hm).
  unfold failsWith, Json.getConstituencyForMember, Json.getPartyForMember
    in Hm.
  rewrite !resolveMembership_items_json in Hm.
  destruct Hm as [H|[[_ H]|[(_ & _ & H)|(_ & _ & _ & H)]]].
  - apply scanMemberships_json_errors in H. tauto.
  - apply scanMemberships_json_errors in H. tauto.
  - unfold Json.getDateOfBirthForMember, Json.convertMnisDatetime in H.
    destruct (Json.DateOfBirth m) as [text|]; [|discriminate H].
    destruct (convert text); simpl in H; [discriminate H|].
    injection H as <-. left. reflexivity.
  - apply getServiceDataForMember_json_errors in H. tauto.
Qed.

Lemma getSummaryDataForMembers_errors_witness :
  Json.getSummaryDataForMembers convertMnisDatetime (mkdate 2016 1 1)
    [abbottJson; peerJson] (mkdate 2015 5 7) = Raises ValueError /\
  (ValueError = ValueError \/ ValueError = Exn RangeCheckError \/
   ValueError = Exn DateRangeError \/ ValueError = Exn EmptyResultError).
Proof.
  assert (Json.getSummaryDataForMembers convertMnisDatetime (mkdate 2016 1 1)
            [abbottJson; peerJson] (mkdate 2015 5 7) = Raises ValueError)
    as Hrun by by_evaluation.
  split; [exact Hrun|].
  exact (getSummaryDataForMembers_errors _ _ _ _ _ Hrun).
Defined.

(** ** Date conversion *)

Example convertMnisDatetime_1992 :
  convertMnisDatetime "1992-04-09T00:00:00" = Some (mkdate 1992 4 9).
Proof. by_evaluation. Qed.

Example convertMnisDatetime_1997 :
  convertMnisDatetime "1997-05-01T00:00:00" = Some (mkdate 1997 5 1).
Proof. by_evaluation. Qed.

Example convertMnisDatetime_2001 :
  convertMnisDatetime "2001-06-07T00:00:00" = Some (mkdate 2001 6 7).
Proof. by_evaluation. Qed.

Example convertMnisDatetime_2015 :
  convertMnisDatetime "2015-05-07T00:00:00" = Some (mkdate 2015 5 7).
Proof. by_evaluation. Qed.

Example convertMnisDatetime_short :
  convertMnisDatetime "2015-5-7" = Some (mkdate 2015 5 7).
Proof. by_evaluation. Qed.

Example convertMnisDatetime_unpadded_with_time :
  convertMnisDatetime "2015-5-7T00:00:00" = None.
Proof. by_evaluation. Qed.

Example convertMnisDatetime_february_30 :
  convertMnisDatetime "2015-02-30T00:00:00" = None.
Proof. by_evaluation. Qed.

Example convertMnisDatetime_leap_day :
  convertMnisDatetime "2016-02-29T00:00:00" = Some (mkdate 2016 2 29).
Proof. by_evaluation. Qed.

Lemma days_before_year_cycle a b c e :
  0 <= a -> 0 <= b <= 3 -> 0 <= c <= 24 -> 0 <= e <= 3 ->
  days_before_year (400 * a + 100 * b + 4 * c + e + 1)
  = 146097 * a + 36524 * b + 1461 * c + 365 * e.
Proof.
  intros Ha Hb Hc He. unfold days_before_year.
  replace (400 * a + 100 * b + 4 * c + e + 1 - 1)
    with (400 * a + 100 * b + 4 * c + e) by lia.
  cbv zeta.
  assert ((400 * a + 100 * b + 4 * c + e) / 4 = 100 * a + 25 * b + c) as ->
    by (symmetry; apply (Z.div_unique _ 4 _ e); lia).
  assert ((400 * a + 100 * b + 4 * c + e) / 100 = 4 * a + b) as ->
    by (symmetry; apply (Z.div_unique _ 100 _ (4 * c + e)); lia).
  assert ((400 * a + 100 * b + 4 * c + e) / 400 = a) as ->
    by (symmetry; apply (Z.div_unique _ 400 _ (100 * b + 4 * c + e)); lia).
  lia.
Qed.

Lemma is_leap_cycle a b c e :
  0 <= a -> 0 <= b <= 3 -> 0 <= c <= 24 -> 0 <= e <= 3 ->
  is_leap (400 * a + 100 * b + 4 * c + e + 1)
  = bool_decide (e = 3) && (negb (bool_decide (c = 24)) || bool_decide (b = 3)).
Proof.
  intros Ha Hb Hc He. unfold is_leap.
  assert ((400 * a + 100 * b + 4 * c + e + 1) mod 4 = (e + 1) mod 4) as ->.
  { replace (400 * a + 100 * b + 4 * c + e + 1)
      with ((e + 1) + (100 * a + 25 * b + c) * 4) by lia.
    apply Z.mod_add. lia. }
  assert ((400 * a + 100 * b + 4 * c + e + 1) mod 100 = (4 * c + e + 1) mod 100) as ->.
  { replace (400 * a + 100 * b + 4 * c + e + 1)
      with ((4 * c + e + 1) + (4 * a + b) * 100) by lia.
    apply Z.mod_add. lia. }
  assert ((400 * a + 100 * b + 4 * c + e + 1) mod 400
          = (100 * b + 4 * c + e + 1) mod 400) as ->.
  { replace (400 * a + 100 * b + 4 * c + e + 1)
      with ((100 * b + 4 * c + e + 1) + a * 400) by lia.
    apply Z.mod_add. lia. }
  repeat case_bool_decide; simpl; try reflexivity;
    Z.to_euclidean_division_equations; lia.
Qed.

Lemma monthDay_spec leapyear n :
  0 <= n <= 364 -> monthDay_ok leapyear n = true.
Proof.
  intros Hn.
  assert (forallb (fun k => monthDay_ok leapyear (Z.of_nat k)) (seq 0 365)
          = true) as Hall
    by (destruct leapyear; vm_compute; reflexivity).
  rewrite forallb_forall in Hall.
  specialize (Hall (Z.to_nat n)).
  rewrite Z2Nat.id in Hall by lia.
  apply Hall, in_seq. lia.
Qed.

Lemma ord2ymd_monthDay ordinal :
  ord2ymd ordinal =
  let n := ordinal - 1 in
  let n400 := n / 146097 in
  let n := n mod 146097 in
  let n100 := n / 36524 in
  let n := n mod 36524 in
  let n4 := n / 1461 in
  let n := n mod 1461 in
  let n1 := n / 365 in
  let n := n mod 365 in
  let year := n400 * 400 + 1 + n100 * 100 + n4 * 4 + n1 in
  if bool_decide (n1 = 4) || bool_decide (n100 = 4) then (year - 1, 12, 31)
  else
    let md := monthDay (bool_decide (n1 = 3) &&
                        (negb (bool_decide (n4 = 24)) || bool_decide (n100 = 3)))
                n in
    (year, md.1, md.2).
Proof.
  unfold ord2ymd, monthDay, DI400Y, DI100Y, DI4Y. cbv zeta.
  destruct (bool_decide _ || bool_decide _); [reflexivity|].
  destruct (bool_decide (_ > _)); reflexivity.
Qed.

Lemma ord2ymd_spec n :
  1 <= n <= 3652059 ->
  exists y m d,
    ord2ymd n = (y, m, d) /\ 1 <= y <= 9999 /\ 1 <= m <= 12 /\
    1 <= d <= days_in_month y m /\ ymd2ord y m d = n.
Proof.
  intros Hn. rewrite ord2ymd_monthDay. cbv zeta.
  pose proof (Z.div_mod (n - 1) 146097 ltac:(lia)) as E1.
  pose proof (Z.mod_pos_bound (n - 1) 146097 ltac:(lia)) as B1.
  set (a := (n - 1) / 146097) in *. set (r1 := (n - 1) mod 146097) in *.
  pose proof (Z.div_mod r1 36524 ltac:(lia)) as E2.
  pose proof (Z.mod_pos_bound r1 36524 ltac:(lia)) as B2.
  set (b := r1 / 36524) in *. set (r2 := r1 mod 36524) in *.
  pose proof (Z.div_mod r2 1461 ltac:(lia)) as E3.
  pose proof (Z.mod_pos_bound r2 1461 ltac:(lia)) as B3.
  set (c := r2 / 1461) in *. set (r3 := r2 mod 1461) in *.
  pose proof (Z.div_mod r3 365 ltac:(lia)) as E4.
  pose proof (Z.mod_pos_bound r3 365 ltac:(lia)) as B4.
  set (e := r3 / 365) in *. set (r4 := r3 mod 365) in *.
  clearbody a r1 b r2 c r3 e r4.
  assert (0 <= a /\ 0 <= b <= 4 /\ 0 <= c <= 24 /\ 0 <= e <= 4) as Hr by lia.
  destruct (decide (b = 4)) as [Hb|Hb].
  { rewrite (bool_decide_eq_true_2 (b = 4)) by exact Hb.
    rewrite orb_true_r.
    assert (c = 0 /\ e = 0 /\ r4 = 0 /\ a <= 23) as (-> & -> & -> & Ha) by lia.
    subst b.
    exists (400 * a + 100 * 3 + 4 * 24 + 3 + 1), 12, 31.
    split; [f_equal; f_equal; lia|].
    unfold ymd2ord, days_before_month, days_in_month.
    rewrite days_before_year_cycle, is_leap_cycle by lia.
    simpl. lia. }
  destruct (decide (e = 4)) as [He|He].
  { rewrite (bool_decide_eq_true_2 (e = 4)) by exact He.
    rewrite orb_true_l.
    assert (r4 = 0 /\ c <= 23) as (-> & Hc) by lia.
    subst e.
    exists (400 * a + 100 * b + 4 * c + 3 + 1), 12, 31.
    split; [f_equal; f_equal; lia|].
    unfold ymd2ord, days_before_month, days_in_month.
    rewrite days_before_year_cycle, is_leap_cycle by lia.
    rewrite (bool_decide_eq_true_2 (3 = 3)) by reflexivity.
    rewrite (bool_decide_eq_false_2 (c = 24)) by lia.
    simpl. split; [|split; [lia|split; [lia|]]]; lia. }
  rewrite (bool_decide_eq_false_2 (b = 4)) by exact Hb.
  rewrite (bool_decide_eq_false_2 (e = 4)) by exact He.
  simpl orb. cbv iota.
  rewrite <- (is_leap_cycle a b c e) by lia.
  set (year := 400 * a + 100 * b + 4 * c + e + 1).
  replace (a * 400 + 1 + b * 100 + c * 4 + e) with year by (unfold year; lia).
  pose proof (monthDay_spec (is_leap year) r4 ltac:(lia)) as Hmd.
  unfold monthDay_ok in Hmd.
  destruct (monthDay (is_leap year) r4) as [m d]. simpl.
  apply andb_prop in Hmd as [Hmd Hsum]. apply andb_prop in Hmd as [Hm Hd].
  apply bool_decide_eq_true_1 in Hm, Hd, Hsum.
  exists year, m, d. split; [reflexivity|].
  split; [unfold year; lia|]. split; [exact Hm|].
  split; [exact Hd|].
  unfold ymd2ord, days_before_month.
  unfold year at 1. rewrite days_before_year_cycle by lia.
  fold year. lia.
Qed.

Lemma length_append s t :
  String.length (s +:+ t) = (String.length s + String.length t)%nat.
Proof. induction s as [|c s IH]; simpl; [reflexivity|]. f_equal. exact IH. Qed.

Lemma zfill_length w n : String.length (zfill w n) = w.
Proof.
  revert n. induction w as [|w IH]; intros n; simpl; [reflexivity|].
  rewrite length_append, IH. simpl. lia.
Qed.

Lemma firstChars_append s rest :
  firstChars (String.length s) (s +:+ rest) = s.
Proof.
  induction s as [|c s IH]; simpl.
  - destruct rest; reflexivity.
  - f_equal. exact IH.
Qed.

Lemma append_empty s : s +:+ "" = s.
Proof.
  induction s as [|c s IH]; [reflexivity|].
  change (String c (s +:+ "") = String c s). f_equal. exact IH.
Qed.

Lemma digitValue_digit k :
  digitValue (ascii_of_nat (48 + Z.to_nat (k mod 10))) = Some (k mod 10).
Proof.
  pose proof (Z.mod_pos_bound k 10 ltac:(lia)) as Hk.
  unfold digitValue. rewrite nat_ascii_embedding by lia.
  replace (Z.of_nat (48 + Z.to_nat (k mod 10))) with (48 + k mod 10) by lia.
  rewrite decide_True by lia. f_equal. lia.
Qed.

Lemma directive_Y_zfill y rest :
  0 <= y <= 9999 -> directive_Y (zfill 4 y +:+ rest) = Some (y, rest).
Proof.
  intros Hy. cbv [zfill digit String.append directive_Y].
  rewrite !digitValue_digit. f_equal. f_equal.
  pose proof (Z.div_mod y 10 ltac:(lia)) as E0.
  pose proof (Z.mod_pos_bound y 10 ltac:(lia)) as B0.
  pose proof (Z.div_mod (y / 10) 10 ltac:(lia)) as E1.
  pose proof (Z.mod_pos_bound (y / 10) 10 ltac:(lia)) as B1.
  pose proof (Z.div_mod (y / 10 / 10) 10 ltac:(lia)) as E2.
  pose proof (Z.mod_pos_bound (y / 10 / 10) 10 ltac:(lia)) as B2.
  pose proof (Z.div_mod (y / 10 / 10 / 10) 10 ltac:(lia)) as E3.
  pose proof (Z.mod_pos_bound (y / 10 / 10 / 10) 10 ltac:(lia)) as B3.
  generalize dependent (y / 10 / 10 / 10 / 10). intros q4.
  generalize dependent ((y / 10 / 10 / 10) mod 10). intros r3.
  generalize dependent (y / 10 / 10 / 10). intros q3.
  generalize dependent ((y / 10 / 10) mod 10). intros r2.
  generalize dependent (y / 10 / 10). intros q2.
  generalize dependent ((y / 10) mod 10). intros r1.
  generalize dependent (y / 10). intros q1.
  generalize dependent (y mod 10). intros r0.
  intros. lia.
Qed.

Lemma directive_m_zfill m rest :
  1 <= m <= 12 -> directive_m (zfill 2 m +:+ rest) = Some (m, rest).
Proof.
  intros Hm.
  assert (exists k : nat, m = Z.of_nat k) as [k ->]
    by (exists (Z.to_nat m); lia).
  do 13 (destruct k as [|k]; [first [reflexivity | lia]|]). lia.
Qed.

Lemma directive_d_zfill d rest :
  1 <= d <= 31 -> directive_d (zfill 2 d +:+ rest) = Some (d, rest).
Proof.
  intros Hd.
  assert (exists k : nat, d = Z.of_nat k) as [k ->]
    by (exists (Z.to_nat d); lia).
  do 32 (destruct k as [|k]; [first [reflexivity | lia]|]). lia.
Qed.

Lemma days_in_month_le y m : 1 <= m <= 12 -> days_in_month y m <= 31.
Proof.
  intros Hm. unfold days_in_month.
  destruct (bool_decide (m = 2) && is_leap y); [lia|].
  assert (exists k : nat, m = Z.of_nat k) as [k ->]
    by (exists (Z.to_nat m); lia).
  do 13 (destruct k as [|k]; [vm_compute; discriminate|]). lia.
Qed.

Lemma hyphen_append s : hyphen ("-" +:+ s) = Some s.
Proof. reflexivity. Qed.

(** Writing a date and reading it back gives the date again: for every date
    that [datetime.date] can hold (ordinals 1 to 3652059, the years 1 to
    9999), [convertMnisDatetime] applied to [str(d)] followed by any text,
    a time of day for one, returns [d]. *)
Theorem convertMnisDatetime_isoformat :
  forall d rest,
    1 <= d <= 3652059 ->
    convertMnisDatetime (isoformat d +:+ rest) = Some d.
Proof.
  intros d rest Hd.
  destruct (ord2ymd_spec d Hd) as (y & m & dd & Hymd & Hy & Hm & Hdd & Hord).
  pose proof (days_in_month_le y m Hm) as Hmax.
  assert (String.length (isoformat d) = 10%nat) as Hlen.
  { unfold isoformat. rewrite Hymd.
    rewrite !length_append, !zfill_length. reflexivity. }
  unfold convertMnisDatetime.
  rewrite <- Hlen, firstChars_append.
  unfold isoformat. rewrite Hymd. unfold strptime_Ymd.
  rewrite directive_Y_zfill by lia. rewrite hyphen_append.
  rewrite directive_m_zfill by lia. rewrite hyphen_append.
  rewrite <- (append_empty (zfill 2 dd)).
  rewrite directive_d_zfill by lia.
  unfold checkedDate. rewrite !decide_True by lia.
  unfold mkdate. rewrite Hord. reflexivity.
Qed.

Lemma days_before_month_range y m d :
  1 <= m <= 12 -> 1 <= d <= days_in_month y m ->
  1 <= days_before_month y m + d <= 365 + (if is_leap y then 1 else 0).
Proof.
  intros Hm. unfold days_before_month, days_in_month.
  assert (exists k : nat, m = Z.of_nat k) as [k ->]
    by (exists (Z.to_nat m); lia).
  destruct (is_leap y);
    do 13 (destruct k as [|k];
           [intros Hd; cbv - [Z.le Z.lt Z.add] in Hm, Hd |- *; lia|]); lia.
Qed.

Lemma days_before_year_range y :
  1 <= y <= 9999 ->
  0 <= days_before_year y /\
  days_before_year y + 365 + (if is_leap y then 1 else 0) <= 3652059.
Proof.
  intros Hy.
  destruct (decide (y = 9999)) as [->|Hne]; [vm_compute; split; discriminate|].
  assert (days_before_year y + 366 <= 3652059 /\ 0 <= days_before_year y)
    as [Hup Hlow].
  { unfold days_before_year. cbv zeta.
    pose proof (Z.div_mod (y - 1) 4 ltac:(lia)) as E4.
    pose proof (Z.mod_pos_bound (y - 1) 4 ltac:(lia)) as B4.
    pose proof (Z.div_mod (y - 1) 100 ltac:(lia)) as E100.
    pose proof (Z.mod_pos_bound (y - 1) 100 ltac:(lia)) as B100.
    pose proof (Z.div_mod (y - 1) 400 ltac:(lia)) as E400.
    pose proof (Z.mod_pos_bound (y - 1) 400 ltac:(lia)) as B400.
    generalize dependent ((y - 1) / 4). intros q4.
    generalize dependent ((y - 1) mod 4). intros r4.
    generalize dependent ((y - 1) / 100). intros q100.
    generalize dependent ((y - 1) mod 100). intros r100.
    generalize dependent ((y - 1) / 400). intros q400.
    generalize dependent ((y - 1) mod 400). intros r400.
    intros. lia. }
  destruct (is_leap y); lia.
Qed.

Lemma ymd2ord_range y m d :
  1 <= y <= 9999 -> 1 <= m <= 12 -> 1 <= d <= days_in_month y m ->
  1 <= ymd2ord y m d <= 3652059.
Proof.
  intros Hy Hm Hd. unfold ymd2ord.
  pose proof (days_before_month_range y m d Hm Hd).
  pose proof (days_before_year_range y Hy).
  lia.
Qed.

(** What [convertMnisDatetime] returns is a date that [datetime.date] can
    hold, and one that its own text converts back to: for every string whose
    first ten characters are ASCII, a result [d] lies between the ordinals 1
    and 3652059 and [convertMnisDatetime (str(d))] is [d] again. *)
Theorem convertMnisDatetime_date :
  forall s d,
    isAscii (firstChars 10 s) = true ->
    convertMnisDatetime s = Some d ->
    1 <= d <= 3652059 /\ convertMnisDatetime (isoformat d) = Some d.
Proof.
  intros s d _ Hs.
  assert (1 <= d <= 3652059) as Hd.
  { unfold convertMnisDatetime in Hs.
    destruct (strptime_Ymd (firstChars 10 s)) as [[[y m] dd]|]; [|discriminate].
    unfold checkedDate in Hs. repeat case_decide; try discriminate.
    injection Hs as <-. apply ymd2ord_range; assumption. }
  split; [exact Hd|].
  rewrite <- (append_empty (isoformat d)).
  apply convertMnisDatetime_isoformat, Hd.
Qed.

Lemma convertMnisDatetime_isoformat_witness :
  1 <= mkdate 2015 5 7 <= 3652059 /\
  convertMnisDatetime (isoformat (mkdate 2015 5 7) +:+ "T00:00:00")
  = Some (mkdate 2015 5 7).
Proof.
  assert (1 <= mkdate 2015 5 7 <= 3652059) as Hd by (split; by_evaluation).
  split; [exact Hd|].
  apply convertMnisDatetime_isoformat, Hd.
Defined.

Lemma convertMnisDatetime_date_witness :
  isAscii (firstChars 10 "2015-5-7") = true /\
  convertMnisDatetime "2015-5-7" = Some (mkdate 2015 5 7) /\
  1 <= mkdate 2015 5 7 <= 3652059 /\
  convertMnisDatetime (isoformat (mkdate 2015 5 7)) = Some (mkdate 2015 5 7).
Proof.
  assert (convertMnisDatetime "2015-5-7" = Some (mkdate 2015 5 7)) as Hs
    by by_evaluation.
  split; [reflexivity|]. split; [exact Hs|].
  apply (convertMnisDatetime_date "2015-5-7"); [reflexivity|exact Hs].
Defined.

(** ** No service during a dissolution *)

Lemma totalOverlap_ge_member ps h s n :
  h ∈ ps -> overlap h s n <= totalOverlap ps s n.
Proof.
  induction ps as [|x ps IH]; intros Hin.
  - apply elem_of_nil in Hin. contradiction.
  - simpl. pose proof (totalOverlap_nonneg ps s n).
    pose proof (overlap_nonneg x s n).
    apply elem_of_cons in Hin as [->|Hin]; [lia|].
    specialize (IH Hin). lia.
Qed.

Lemma getMembershipDays_dissolution_step m onDate onDate'
    (houseDates : gmap string houseDate) h :
  (exists ps, ps ≡ₚ periods houseDates /\
              Forall wellFormed ps /\ nonOverlapping ps) ->
  h ∈ periods houseDates ->
  StartDate m <= dissolution h ->
  (forall n, EndDate m = Some n -> election h <= n) ->
  dissolution h <= onDate -> onDate <= onDate' -> onDate' <= election h ->
  getMembershipDays m onDate houseDates
  = getMembershipDays m onDate' houseDates.
Proof.
  intros (ps & Hperm & Hwf & Hno) Hh Hs Hend Hd Hle He.
  assert (Forall wellFormed (periods houseDates)) as Hwf'
    by (rewrite <- Hperm; exact Hwf).
  rewrite !getMembershipDays_cases.
  assert (effectiveEnd m onDate = onDate /\ effectiveEnd m onDate' = onDate')
    as [-> ->].
  { unfold effectiveEnd. destruct (EndDate m) as [n|]; simpl; [|lia].
    specialize (Hend n eq_refl). lia. }
  generalize dependent (StartDate m). intros s Hs.
  assert (forall a b, a <= b ->
            totalOverlap (periods houseDates) a b <= b - a) as Hbound.
  { intros a b Hab. rewrite <- (totalOverlap_Permutation ps) by exact Hperm.
    apply totalOverlap_bound; assumption. }
  pose proof (totalOverlap_ge_member _ h onDate onDate' Hh) as Hin.
  pose proof (totalOverlap_ge_member _ h s onDate' Hh) as Hin'.
  pose proof (Hbound onDate onDate' Hle) as Hb.
  pose proof (Hbound s onDate') as Hb'.
  assert (s <= onDate ->
          totalOverlap (periods houseDates) s onDate
          + totalOverlap (periods houseDates) onDate onDate'
          = totalOverlap (periods houseDates) s onDate') as Hsplit.
  { intros Hso. apply totalOverlap_split; assumption. }
  unfold overlap in Hin, Hin'.
  repeat case_decide; try lia; try reflexivity;
    rewrite ?removePeriods_formula by (first [lia | exact Hwf']);
    f_equal; lia.
Qed.

(** No service accrues while the House is dissolved: on a table of
    well-formed periods that do not overlap, a membership that began on or
    before a dissolution and did not end before the election that followed
    has the same result for every query date from the dissolution to the
    election, both included. *)
Theorem getMembershipDays_constant_in_dissolution :
  forall m onDate onDate' (houseDates : gmap string houseDate) h,
    (exists ps, ps ≡ₚ periods houseDates /\
                Forall wellFormed ps /\ nonOverlapping ps) ->
    h ∈ periods houseDates ->
    StartDate m <= dissolution h ->
    (forall n, EndDate m = Some n -> election h <= n) ->
    dissolution h <= onDate <= election h ->
    dissolution h <= onDate' <= election h ->
    getMembershipDays m onDate houseDates
    = getMembershipDays m onDate' houseDates.
Proof.
  intros m onDate onDate' houseDates h Hcal Hh Hs Hend Ho Ho'.
  destruct (Z.le_ge_cases onDate onDate') as [Hle|Hge].
  - apply (getMembershipDays_dissolution_step m onDate onDate' houseDates h);
      first [assumption | lia].
  - symmetry.
    apply (getMembershipDays_dissolution_step m onDate' onDate houseDates h);
      first [assumption | lia].
Qed.

Lemma getMembershipDays_constant_in_dissolution_witness :
  HouseDate (mkdate 2015 3 30) (mkdate 2015 5 7) ∈ periods dates /\
  getMembershipDays abbott (mkdate 2015 3 30) dates
  = getMembershipDays abbott (mkdate 2015 5 7) dates.
Proof.
  assert (HouseDate (mkdate 2015 3 30) (mkdate 2015 5 7) ∈ periods dates)
    as Hh.
  { let ps := eval vm_compute in (periods dates) in
    replace (periods dates) with ps by (vm_compute; reflexivity).
    do 21 right. left. }
  split; [exact Hh|].
  apply (getMembershipDays_constant_in_dissolution abbott _ _ dates
           (HouseDate (mkdate 2015 3 30) (mkdate 2015 5 7))).
  - exists (periods dates). split; [reflexivity|].
    split; [apply dates_periods_wellFormed|apply dates_periods_nonOverlapping].
  - exact Hh.
  - by_evaluation.
  - intros n Hn. discriminate Hn.
  - split; by_evaluation.
  - split; by_evaluation.
Defined.
